(** * Data Aggregation Tool: a shallow embedding of [app.py]

    The development follows the two functions of the script,
    [format_date] and [process_file].  The calls they make into pandas,
    dateutil, the [re] and [csv] modules and streamlit are modelled here:

    - a cell of a table is a missing value, a text or a number
      ([value]); numbers are exact rationals, kept reduced, in place of
      IEEE doubles;
    - text is a [string] of one-byte characters, so [\d] is [0-9] and
      [\w] is [A-Za-z0-9_];
    - a Python exception is a [Raise] result, and every streamlit call
      and the file written by [to_csv] is an [event] in the log of the
      run (a writer monad over an exception monad);
    - what the libraries decide on their own (reading a file, dateutil's
      fuzzy parser, turning text into a number, printing a number, the
      order of the groups) is a field of [Externals];
    - [pandas.Timestamp] has its nanosecond range, and the CSV is
      written with the line feed as line terminator. *)

From Stdlib Require Import List String Ascii ZArith QArith Bool Lia Permutation DecimalString.
Import ListNotations.

Local Open Scope string_scope.
Local Open Scope Z_scope.
Local Open Scope list_scope.

(** ** Values, exceptions and the log of a run *)

(** A cell: [VNull] stands for None, NaN and NaT, all of which
    [pd.isna] accepts. *)
Inductive value : Type :=
| VNull
| VStr (s : string)
| VNum (q : Q).

Inductive exn : Type :=
| TypeError
| ValueError
| KeyError (key : string)
| AttributeError
| ParserError
| OtherError (text : string).

Inductive result (A : Type) : Type :=
| Ret (a : A)
| Raise (e : exn).
Arguments Ret {A} a.
Arguments Raise {A} e.

(** The texts handed to [st.error]. *)
Inductive message : Type :=
| ErrDateParse (date_str : value) (e : exn)  (* Error parsing date: {date_str} -> {e} *)
| ErrUnsupportedFile                         (* Unsupported file type. Please provide a .xlsx or .csv file. *)
| ErrMissingColumns (missing_cols : list string) (* Missing columns: {missing_cols} *)
| ErrUnsupportedAgg                          (* Unsupported aggregation function *)
| ErrNoColumns.                              (* No columns selected for summing *)

Inductive event : Type :=
| StError (m : message)
| StWrite (label : string) (items : list string)
| StSuccess (text : string)
| StDownloadButton (label data file_name mime : string)
| ToCsvFile (path content : string).

(** ** The monad of a run: a log of events and a result or an exception *)

Definition M (A : Type) : Type := (list event * result A)%type.

Definition ret {A} (a : A) : M A := ([], Ret a).
Definition raise {A} (e : exn) : M A := ([], Raise e).
Definition emit (e : event) : M unit := ([e], Ret tt).
Definition lift {A} (r : result A) : M A := ([], r).

Definition bind {A B} (m : M A) (f : A -> M B) : M B :=
  match m with
  | (w, Ret a) => let (w', r) := f a in (w ++ w', r)
  | (w, Raise e) => (w, Raise e)
  end.

Notation "x <- m ;; k" := (bind m (fun x => k))
  (at level 61, m at next level, right associativity).
Notation "m ;;; k" := (bind m (fun _ => k))
  (at level 61, right associativity).

(** [try: body except Exception as e: handler e] *)
Definition try_except {A} (body : M A) (handler : exn -> M A) : M A :=
  match body with
  | (w, Ret a) => (w, Ret a)
  | (w, Raise e) => let (w', r) := handler e in (w ++ w', r)
  end.

Fixpoint mapM {A B} (f : A -> M B) (l : list A) : M (list B) :=
  match l with
  | [] => ret []
  | a :: l' => b <- f a ;; bs <- mapM f l' ;; ret (b :: bs)
  end.

Definition st_error (m : message) : M unit := emit (StError m).

(** ** Characters and decimal text *)

Definition is_digit (c : ascii) : bool :=
  ((48 <=? nat_of_ascii c) && (nat_of_ascii c <=? 57))%nat.

Definition is_word (c : ascii) : bool :=
  let n := nat_of_ascii c in
  (((48 <=? n) && (n <=? 57)) || ((65 <=? n) && (n <=? 90))
   || ((97 <=? n) && (n <=? 122)) || (n =? 95))%nat.

Definition digit_val (c : ascii) : Z := Z.of_nat (nat_of_ascii c) - 48.

Definition digit_char (d : Z) : ascii := ascii_of_nat (Z.to_nat (d + 48)).

(** [int(text)] on a run of decimal digits. *)
Fixpoint int_of_digits_from (acc : Z) (s : string) : Z :=
  match s with
  | EmptyString => acc
  | String c s' => int_of_digits_from (10 * acc + digit_val c) s'
  end.

Definition int_of_digits (s : string) : Z := int_of_digits_from 0 s.

(** [%02d] and [%04d]. *)
Definition pad2 (n : Z) : string :=
  String (digit_char (n / 10 mod 10)) (String (digit_char (n mod 10)) "").

Definition pad4 (n : Z) : string :=
  String (digit_char (n / 1000 mod 10))
    (String (digit_char (n / 100 mod 10))
       (String (digit_char (n / 10 mod 10))
          (String (digit_char (n mod 10)) ""))).

(** ** The special pattern of [format_date]

    [re.match(r'(\d{4}) (\d{2}) \(\w+ \'\d{2}\)', date_str)]: the match
    is anchored at the start only, and returns the two groups. *)

(** The longest run of word characters, and what follows it.  The
    pattern asks for a space after [\w+], which is no word character, so
    the greedy run is the only candidate. *)
Fixpoint word_run (s : string) : string * string :=
  match s with
  | EmptyString => ("", "")
  | String c s' =>
      if is_word c
      then let (w, r) := word_run s' in (String c w, r)
      else ("", s)
  end.

Definition re_match_special (s : string) : option (string * string) :=
  match s with
  | String y1 (String y2 (String y3 (String y4 (String sp1
      (String m1 (String m2 (String sp2 (String lpar rest)))))))) =>
      if forallb is_digit [y1; y2; y3; y4; m1; m2]
         && Ascii.eqb sp1 " " && Ascii.eqb sp2 " " && Ascii.eqb lpar "("
      then
        match word_run rest with
        | (String _ _,
           String sp3 (String apos (String d1 (String d2 (String rpar _))))) =>
            if Ascii.eqb sp3 " " && Ascii.eqb apos "'"
               && is_digit d1 && is_digit d2 && Ascii.eqb rpar ")"
            then Some (String y1 (String y2 (String y3 (String y4 ""))),
                       String m1 (String m2 ""))
            else None
        | _ => None
        end
      else None
  | _ => None
  end.

(** ** Dates *)

Record date : Type := mkDate { year : Z; month : Z; day : Z }.

Definition is_leap (y : Z) : bool :=
  ((y mod 4 =? 0) && negb (y mod 100 =? 0)) || (y mod 400 =? 0).

Definition days_in_month (y m : Z) : Z :=
  if (m =? 2) then (if is_leap y then 29 else 28)
  else if (m =? 4) || (m =? 6) || (m =? 9) || (m =? 11) then 30
  else 31.

Definition valid_date (d : date) : bool :=
  (1 <=? year d) && (year d <=? 9999)
  && (1 <=? month d) && (month d <=? 12)
  && (1 <=? day d) && (day d <=? days_in_month (year d) (month d)).

(** [pandas.Timestamp] counts nanoseconds in 64 bits: midnight of a day
    is representable from 1677-09-22 to 2262-04-11. *)
Definition timestamp_in_bounds (d : date) : bool :=
  let n := year d * 10000 + month d * 100 + day d in
  (16770922 <=? n) && (n <=? 22620411).

(** The text [YYYY-MM-DD] that [format_date] builds, read with
    [format='%Y-%m-%d']. *)
Definition parse_ymd (text : string) : option date :=
  match text with
  | String y1 (String y2 (String y3 (String y4 (String dash1
      (String m1 (String m2 (String dash2 (String d1 (String d2 ""))))))))) =>
      if forallb is_digit [y1; y2; y3; y4; m1; m2; d1; d2]
         && Ascii.eqb dash1 "-" && Ascii.eqb dash2 "-"
      then
        Some (mkDate
                (int_of_digits (String y1 (String y2 (String y3 (String y4 "")))))
                (int_of_digits (String m1 (String m2 "")))
                (int_of_digits (String d1 (String d2 ""))))
      else None
  | _ => None
  end.

(** [pd.to_datetime(text, format='%Y-%m-%d')]: ValueError when the text
    is no calendar date, and (OutOfBoundsDatetime, a ValueError) when
    the date is outside the Timestamp range. *)
Definition pd_to_datetime (text : string) : result date :=
  match parse_ymd text with
  | Some d => if valid_date d && timestamp_in_bounds d then Ret d else Raise ValueError
  | None => Raise ValueError
  end.

(** [strftime('%d-%m-%Y')] *)
Definition strftime (d : date) : string :=
  (pad2 (day d) ++ "-" ++ pad2 (month d) ++ "-" ++ pad4 (year d))%string.

(** ** Tables *)

(** A row holds its cells by column name; a column the row does not
    have reads as missing. *)
Definition row : Type := list (string * value).

Record DataFrame : Type := mkFrame { columns : list string; rows : list row }.

Definition isna (v : value) : bool :=
  match v with VNull => true | _ => false end.

Fixpoint lookup (r : row) (c : string) : value :=
  match r with
  | [] => VNull
  | (c', v) :: r' => if String.eqb c' c then v else lookup r' c
  end.

Fixpoint set_cell (r : row) (c : string) (v : value) : row :=
  match r with
  | [] => [(c, v)]
  | (c', v') :: r' =>
      if String.eqb c' c then (c', v) :: r' else (c', v') :: set_cell r' c v
  end.

Definition mem (c : string) (cs : list string) : bool := existsb (String.eqb c) cs.

Fixpoint distinct (cs : list string) : bool :=
  match cs with
  | [] => true
  | c :: cs' => negb (mem c cs') && distinct cs'
  end.

Definition of_option (o : option string) : value :=
  match o with Some s => VStr s | None => VNull end.

(** [data.dropna(how='all')] *)
Definition dropna_all (data : DataFrame) : DataFrame :=
  mkFrame (columns data)
    (filter (fun r => negb (forallb (fun c => isna (lookup r c)) (columns data)))
       (rows data)).

(** [data[col]]: KeyError when the table has no such column. *)
Definition getitem (data : DataFrame) (col : string) : result (list value) :=
  if mem col (columns data)
  then Ret (map (fun r => lookup r col) (rows data))
  else Raise (KeyError col).

(** [data[col] = series]: the column is replaced, or added last. *)
Definition setitem (data : DataFrame) (col : string) (series : list value) : DataFrame :=
  mkFrame (if mem col (columns data) then columns data else columns data ++ [col])
    (map (fun rv => set_cell (fst rv) col (snd rv)) (combine (rows data) series)).

(** [data.dropna(subset=[col])] *)
Definition dropna_subset (data : DataFrame) (col : string) : DataFrame :=
  mkFrame (columns data) (filter (fun r => negb (isna (lookup r col))) (rows data)).

(** ** What the libraries decide *)

Record UploadedFile : Type := mkFile { name : string; payload : string }.

(** [pd.read_excel] gives one table for a sheet name, and a mapping from
    sheet names to tables when [sheet_name] is None. *)
Inductive excel_data : Type :=
| Sheet (data : DataFrame)
| Sheets (all : list (string * DataFrame)).

Record Externals : Type := mkExternals {
  (* pd.read_excel(file, sheet_name=sheet_name) *)
  read_excel : UploadedFile -> option string -> result excel_data;
  (* pd.read_csv(file) *)
  read_csv : UploadedFile -> result DataFrame;
  (* dateutil.parser.parse(text, fuzzy=True) *)
  dateutil_parse : string -> result date;
  (* the number pd.to_numeric reads in a text, if any *)
  str_to_num : string -> option Q;
  (* the text to_csv prints for a number, which depends on the dtype of
     its column and so on the other cells of the column *)
  num_to_str : list value -> Q -> string;
  (* whether the csv writer quotes a carriage return although the line
     terminator is a line feed (it does from Python 3.13 on) *)
  quotes_cr : bool;
  (* the order in which groupby lists the group keys *)
  sort_keys : list (list value) -> list (list value);
  sort_keys_perm : forall ks, Permutation (sort_keys ks) ks
}.

(** ** [format_date] *)

Definition re_match (date_str : value) : M (option (string * string)) :=
  match date_str with
  | VStr s => ret (re_match_special s)
  | _ => raise TypeError
  end.

Definition parser_parse (L : Externals) (date_str : value) : M date :=
  match date_str with
  | VStr s => lift (dateutil_parse L s)
  | _ => raise TypeError
  end.

(** The body of the [try] block. *)
Definition format_date_try (L : Externals) (date_str : value) : M (option string) :=
  m <- re_match date_str ;;
  match m with
  | Some (year, month) =>
      let date := (year ++ "-" ++ month ++ "-01")%string in
      ts <- lift (pd_to_datetime date) ;;
      ret (Some (strftime ts))
  | None =>
      date <- parser_parse L date_str ;;
      ret (Some (strftime date))
  end.

Definition format_date (L : Externals) (date_str : value) : M (option string) :=
  if isna date_str then ret None
  else
    try_except (format_date_try L date_str)
      (fun e => st_error (ErrDateParse date_str e) ;;; ret None).

(** ** Numeric columns and reductions *)

(** [pd.to_numeric(..., errors='coerce')] on one cell. *)
Definition to_numeric (L : Externals) (v : value) : value :=
  match v with
  | VNull => VNull
  | VNum q => VNum q
  | VStr s => match str_to_num L s with Some q => VNum q | None => VNull end
  end.

Definition coerce_row (L : Externals) (cols : list string) (r : row) : row :=
  fold_left (fun r' c => set_cell r' c (to_numeric L (lookup r c))) cols r.

(** [data[cols] = data[cols].apply(pd.to_numeric, errors='coerce')]:
    assigning to a list that names a column twice raises ValueError. *)
Definition coerce_columns (L : Externals) (data : DataFrame) (cols : list string)
  : result DataFrame :=
  if distinct cols
  then Ret (mkFrame (columns data) (map (coerce_row L cols) (rows data)))
  else Raise ValueError.

Inductive reduction : Type := RSum | RMean | RMedian.

Fixpoint insert_q (x : Q) (l : list Q) : list Q :=
  match l with
  | [] => [x]
  | y :: l' => if Qle_bool x y then x :: l else y :: insert_q x l'
  end.

Definition sort_q (l : list Q) : list Q := fold_right insert_q [] l.

Definition q_sum (l : list Q) : Q := fold_left Qplus l 0%Q.

Definition q_mean (l : list Q) : Q := (q_sum l / inject_Z (Z.of_nat (List.length l)))%Q.

Definition q_median (l : list Q) : Q :=
  let s := sort_q l in
  let n := List.length s in
  if Nat.even n
  then ((nth (n / 2 - 1) s 0 + nth (n / 2) s 0) / 2)%Q
  else nth (n / 2) s 0%Q.

(** The reductions skip missing values: they are given the numbers of
    the group only.  An empty sum is 0, an empty mean or median is NaN. *)
Definition reduce (f : reduction) (l : list Q) : value :=
  match f, l with
  | RSum, _ => VNum (Qred (q_sum l))
  | _, [] => VNull
  | RMean, _ => VNum (Qred (q_mean l))
  | RMedian, _ => VNum (Qred (q_median l))
  end.

(** ** Grouping *)

Definition Q_eq_dec (a b : Q) : {a = b} + {a <> b}.
Proof. decide equality; [apply Pos.eq_dec | apply Z.eq_dec]. Defined.

Definition value_eq_dec (a b : value) : {a = b} + {a <> b}.
Proof. decide equality; [apply string_dec | apply Q_eq_dec]. Defined.

Definition key_eq_dec : forall a b : list value, {a = b} + {a <> b} :=
  list_eq_dec value_eq_dec.

Definition key_eqb (a b : list value) : bool :=
  if key_eq_dec a b then true else false.

Definition key_of (keys : list string) (r : row) : list value := map (lookup r) keys.

Definition has_null (k : list value) : bool := existsb isna k.

(** The keys of the groups: a key with a missing component makes no
    group (groupby's [dropna=True]), and each key is listed once. *)
Definition group_keys (L : Externals) (keys : list string) (rs : list row)
  : list (list value) :=
  sort_keys L (nodup key_eq_dec (filter (fun k => negb (has_null k)) (map (key_of keys) rs))).

Definition group (keys : list string) (rs : list row) (k : list value) : list row :=
  filter (fun r => key_eqb (key_of keys r) k) rs.

Definition numbers (c : string) (rs : list row) : list Q :=
  flat_map (fun r => match lookup r c with VNum q => [q] | _ => [] end) rs.

(** [data.groupby(keys)[sum_cols].f().reset_index()]: KeyError for a key
    that is no column; ValueError from [reset_index] when a key would be
    inserted next to a column of the same name. *)
Definition groupby_agg (L : Externals) (data : DataFrame) (keys sum_cols : list string)
    (f : reduction) : result DataFrame :=
  match find (fun k => negb (mem k (columns data))) keys with
  | Some k => Raise (KeyError k)
  | None =>
      if distinct (keys ++ sum_cols) then
        Ret (mkFrame (keys ++ sum_cols)
               (map (fun k =>
                       combine (keys ++ sum_cols)
                         (k ++ map (fun c => reduce f (numbers c (group keys (rows data) k)))
                                 sum_cols))
                  (group_keys L keys (rows data))))
      else Raise ValueError
  end.

(** ** [to_csv(index=False)] *)

Definition comma : ascii := ","%char.
Definition dquote : ascii := "034"%char.
Definition LF : ascii := "010"%char.
Definition CR : ascii := "013"%char.

Definition cell_text (L : Externals) (column : list value) (v : value) : string :=
  match v with
  | VNull => ""
  | VStr s => s
  | VNum q => num_to_str L column q
  end.

(** The header and the rows, as the texts handed to the csv writer. *)
Definition to_records (L : Externals) (data : DataFrame) : list (list string) :=
  columns data
  :: map (fun r =>
            map (fun c => cell_text L (map (fun r' => lookup r' c) (rows data)) (lookup r c))
              (columns data))
       (rows data).

Definition special (L : Externals) (c : ascii) : bool :=
  Ascii.eqb c comma || Ascii.eqb c dquote || Ascii.eqb c LF
  || (quotes_cr L && Ascii.eqb c CR).

Fixpoint needs_quote (L : Externals) (s : string) : bool :=
  match s with
  | EmptyString => false
  | String c s' => special L c || needs_quote L s'
  end.

Fixpoint double_quotes (s : string) : string :=
  match s with
  | EmptyString => EmptyString
  | String c s' =>
      if Ascii.eqb c dquote
      then String dquote (String dquote (double_quotes s'))
      else String c (double_quotes s')
  end.

Definition quote_field (L : Externals) (s : string) : string :=
  if needs_quote L s
  then String dquote (double_quotes s ++ String dquote "")%string
  else s.

Fixpoint join_fields (L : Externals) (fields : list string) : string :=
  match fields with
  | [] => String LF ""
  | [f] => (quote_field L f ++ String LF "")%string
  | f :: fields' => (quote_field L f ++ String comma (join_fields L fields'))%string
  end.

(** A record that would print as an empty line is printed as a quoted
    empty field. *)
Definition write_row (L : Externals) (fields : list string) : string :=
  match fields with
  | [EmptyString] => String dquote (String dquote (String LF ""))
  | _ => join_fields L fields
  end.

Definition write_rows (L : Externals) (records : list (list string)) : string :=
  fold_right (fun fields out => (write_row L fields ++ out)%string) "" records.

Definition to_csv (L : Externals) (data : DataFrame) : string :=
  write_rows L (to_records L data).

(** ** [process_file] *)

Fixpoint endswith (s suffix : string) : bool :=
  if String.eqb s suffix then true
  else match s with
       | EmptyString => false
       | String _ s' => endswith s' suffix
       end.

Definition reduction_of (agg_func : string) : option reduction :=
  if String.eqb agg_func "sum" then Some RSum
  else if String.eqb agg_func "mean" then Some RMean
  else if String.eqb agg_func "median" then Some RMedian
  else None.

Definition formatted_month : string := "Formatted Month".
Definition output_file_path : string := "Cleaned_Aggregated_Data.csv".

(** [['Formatted Month'] + group_cols]: TypeError when [group_cols] is
    left at its default, None. *)
Definition group_key_columns (group_cols : option (list string)) : result (list string) :=
  match group_cols with
  | Some g => Ret (formatted_month :: g)
  | None => Raise TypeError
  end.

(** Lines 51 to 87 of [process_file]: the check of the requested
    columns, the reduction and the output. *)
Definition aggregate_block (L : Externals) (data : DataFrame)
    (group_cols sum_cols : option (list string)) (agg_func : string)
  : M (option DataFrame) :=
  match sum_cols with
  | Some ((_ :: _) as sum_cols) =>
      let missing_cols := filter (fun col => negb (mem col (columns data))) sum_cols in
      match missing_cols with
      | _ :: _ => st_error (ErrMissingColumns missing_cols) ;;; ret None
      | [] =>
          data <- lift (coerce_columns L data sum_cols) ;;
          match reduction_of agg_func with
          | Some f =>
              keys <- lift (group_key_columns group_cols) ;;
              aggregated_data <- lift (groupby_agg L data keys sum_cols f) ;;
              emit (ToCsvFile output_file_path (to_csv L aggregated_data)) ;;;
              emit (StSuccess "Data processed successfully!") ;;;
              emit (StDownloadButton "Download Cleaned Data" (to_csv L aggregated_data)
                      output_file_path "text/csv") ;;;
              ret (Some aggregated_data)
          | None => st_error ErrUnsupportedAgg ;;; ret None
          end
      end
  | _ => st_error ErrNoColumns ;;; ret None
  end.

(** Lines 38 to 87 of [process_file]: the work on the table that was
    read. *)
Definition process_table (L : Externals) (data : DataFrame) (date_col : string)
    (group_cols sum_cols : option (list string)) (agg_func : string)
    (date_format_func : value -> M (option string)) : M (option DataFrame) :=
  let available_columns := columns data in
  emit (StWrite "Available columns in the uploaded file:" available_columns) ;;;
  let data := dropna_all data in
  dates <- lift (getitem data date_col) ;;
  formatted <- mapM date_format_func dates ;;
  let data := setitem data formatted_month (map of_option formatted) in
  let data := dropna_subset data formatted_month in
  aggregate_block L data group_cols sum_cols agg_func.

Definition process_file (L : Externals) (file : UploadedFile) (sheet_name : option string)
    (date_col : string) (group_cols sum_cols : option (list string)) (agg_func : string)
    (date_format_func : value -> M (option string)) : M (option DataFrame) :=
  if endswith (name file) ".xlsx" then
    loaded <- lift (read_excel L file sheet_name) ;;
    match loaded with
    | Sheet data =>
        process_table L data date_col group_cols sum_cols agg_func date_format_func
    | Sheets _ => raise AttributeError   (* a dict has no [columns] *)
    end
  else if endswith (name file) ".csv" then
    data <- lift (read_csv L file) ;;
    process_table L data date_col group_cols sum_cols agg_func date_format_func
  else
    st_error ErrUnsupportedFile ;;; ret None.

(** ** A sample instance of the libraries, to evaluate runs

    Every file reads as the given table; dateutil rejects every text; a
    text of decimal digits reads as that natural number; a number prints
    as its numerator, followed by a slash and its denominator when it is
    no integer; a carriage return is not quoted; the groups are listed
    in the order in which the model collects their keys. *)

Definition sample_str_to_num (s : string) : option Q :=
  match s with
  | EmptyString => None
  | _ => if (fix all (s : string) : bool :=
               match s with
               | EmptyString => true
               | String c s' => is_digit c && all s'
               end) s
         then Some (inject_Z (int_of_digits s)) else None
  end.

Definition sample_num_to_str (_ : list value) (q : Q) : string :=
  let n := NilZero.string_of_int (Z.to_int (Qnum q)) in
  match Qden q with
  | xH => n
  | d => (n ++ "/" ++ NilZero.string_of_uint (Pos.to_uint d))%string
  end.

Definition sample_externals (t : DataFrame) : Externals :=
  mkExternals (fun _ _ => Ret (Sheet t)) (fun _ => Ret t) (fun _ => Raise ParserError)
    sample_str_to_num sample_num_to_str false (fun ks => ks)
    (fun ks => Permutation_refl ks).

Definition month_region_sales : DataFrame :=
  mkFrame ["Month"; "Region"; "Sales"]
    [ [("Month", VStr "2024 05 (May '24)"); ("Region", VStr "A"); ("Sales", VNum 10)];
      [("Month", VStr "2024 05 (May '24)"); ("Region", VStr "A"); ("Sales", VNum 20)] ].

(** ** Reading a CSV text back *)

Inductive csv_state : Type := FieldStart | Unquoted | Quoted | QuoteSeen.

(** Modelled from the spec: the parsing back of the downloadable CSV "as
    a comma-separated table with header row", of which the repository
    has no code.  It reads the dialect that [to_csv] writes: fields
    separated by commas, records ended by a line feed, a field between
    double quotes holding any character, with a double quote written
    twice.  The first record is the header. *)
Fixpoint parse_csv_from (st : csv_state) (field : string) (record : list string)
    (records : list (list string)) (input : string) : option (list (list string)) :=
  match input with
  | EmptyString =>
      match st, record with
      | FieldStart, [] => Some records
      | Quoted, _ => None
      | _, _ => Some (records ++ [record ++ [field]])
      end
  | String c rest =>
      match st with
      | Quoted =>
          if Ascii.eqb c dquote
          then parse_csv_from QuoteSeen field record records rest
          else parse_csv_from Quoted (field ++ String c "")%string record records rest
      | QuoteSeen =>
          if Ascii.eqb c dquote
          then parse_csv_from Quoted (field ++ String dquote "")%string record records rest
          else if Ascii.eqb c comma
          then parse_csv_from FieldStart "" (record ++ [field]) records rest
          else if Ascii.eqb c LF
          then parse_csv_from FieldStart "" [] (records ++ [record ++ [field]]) rest
          else None
      | _ =>
          if Ascii.eqb c comma
          then parse_csv_from FieldStart "" (record ++ [field]) records rest
          else if Ascii.eqb c LF
          then parse_csv_from FieldStart "" [] (records ++ [record ++ [field]]) rest
          else if Ascii.eqb c dquote
          then match st with
               | FieldStart => parse_csv_from Quoted "" record records rest
               | _ => None
               end
          else parse_csv_from Unquoted (field ++ String c "")%string record records rest
      end
  end.

Definition parse_csv (input : string) : option (list (list string)) :=
  parse_csv_from FieldStart "" [] [] input.

(** ** Notions used to state the properties *)

(** The uploaded file is of a supported type and reads as [data]. *)
Definition reads_as (L : Externals) (file : UploadedFile) (sheet_name : option string)
    (data : DataFrame) : Prop :=
  if endswith (name file) ".xlsx" then read_excel L file sheet_name = Ret (Sheet data)
  else if endswith (name file) ".csv" then read_csv L file = Ret data
  else False.

(** What [format_date] returns for a cell, and what it reports. *)
Definition date_value (L : Externals) (v : value) : option string :=
  match snd (format_date L v) with
  | Ret o => o
  | Raise _ => None
  end.

Definition date_log (L : Externals) (v : value) : list event := fst (format_date L v).

Definition is_some {A} (o : option A) : bool :=
  match o with Some _ => true | None => false end.



(** The rows after the date step (line 49): not all empty, with a
    normalized date, which they carry in the added column. *)
Definition dated_rows (L : Externals) (date_col : string) (data : DataFrame) : list row :=
  filter (fun r => negb (isna (lookup r formatted_month)))
    (map (fun r => set_cell r formatted_month (of_option (date_value L (lookup r date_col))))
       (rows (dropna_all data))).

Definition dated (L : Externals) (date_col : string) (data : DataFrame) : DataFrame :=
  mkFrame (if mem formatted_month (columns data) then columns data
           else columns data ++ [formatted_month])
    (dated_rows L date_col data).

(** The numbers among the entries of a column, as [pd.to_numeric] reads
    them: an entry that is no number gives none. *)
Definition numeric_entries (L : Externals) (c : string) (rs : list row) : list Q :=
  flat_map (fun r => match to_numeric L (lookup r c) with VNum q => [q] | _ => [] end) rs.

Definition is_output (e : event) : bool :=
  match e with
  | ToCsvFile _ _ | StDownloadButton _ _ _ _ => true
  | _ => false
  end.

(** The log holds nothing but reports of dates that did not parse. *)
Definition date_errors_only (log : list event) : Prop :=
  Forall (fun e => exists v x, e = StError (ErrDateParse v x)) log.

(** What the date step reports: the messages of [format_date] for the
    date cells of the rows that are not all empty, in row order. *)
Definition date_report (L : Externals) (date_col : string) (data : DataFrame) : list event :=
  flat_map (date_log L) (map (fun r => lookup r date_col) (rows (dropna_all data))).

Definition available_columns_line (data : DataFrame) : event :=
  StWrite "Available columns in the uploaded file:" (columns data).

Definition sales_csv : UploadedFile := mkFile "sales.csv" "".

Definition date_sales : DataFrame :=
  mkFrame ["Date"; "Sales"] [ [("Date", VStr "2024 05 (May '24)"); ("Sales", VNum 10)] ].

(** The row of the aggregated table for the group of key [k]. *)
Definition agg_row (keys sum_cols : list string) (f : reduction) (rs : list row)
    (k : list value) : row :=
  combine (keys ++ sum_cols)
    (k ++ map (fun c => reduce f (numbers c (group keys rs k))) sum_cols).

(** What a successful run adds to the log, and in which order. *)
Definition output_events (L : Externals) (aggregated_data : DataFrame) : list event :=
  [ ToCsvFile output_file_path (to_csv L aggregated_data);
    StSuccess "Data processed successfully!";
    StDownloadButton "Download Cleaned Data" (to_csv L aggregated_data)
      output_file_path "text/csv" ].


(** A table in which one entry of the numeric column is a text that is
    no number. *)
Definition sales_not_numeric : DataFrame :=
  mkFrame ["Month"; "Region"; "Sales"]
    [ [("Month", VStr "2024 05 (May '24)"); ("Region", VStr "A"); ("Sales", VNum 10)];
      [("Month", VStr "2024 05 (May '24)"); ("Region", VStr "A"); ("Sales", VStr "n/a")];
      [("Month", VStr "2024 05 (May '24)"); ("Region", VStr "A"); ("Sales", VStr "20")] ].

(** Two tables whose first rows differ in the type of the region only:
    the number 7 and the text [7].  In the second table the column of
    the regions holds texts, since [x] is no number; its second row has
    no date. *)
Definition region_as_number : DataFrame :=
  mkFrame ["Month"; "Region"; "Sales"]
    [ [("Month", VStr "2024 05 (May '24)"); ("Region", VNum 7); ("Sales", VNum 10)] ].

Definition region_as_text : DataFrame :=
  mkFrame ["Month"; "Region"; "Sales"]
    [ [("Month", VStr "2024 05 (May '24)"); ("Region", VStr "7"); ("Sales", VNum 10)];
      [("Month", VNull); ("Region", VStr "x"); ("Sales", VNum 5)] ].

(** A table in which the second row has no date, and the date of the
    third is a number. *)
Definition dates_missing : DataFrame :=
  mkFrame ["Month"; "Region"; "Sales"]
    [ [("Month", VStr "2024 05 (May '24)"); ("Region", VStr "A"); ("Sales", VNum 10)];
      [("Month", VNull); ("Region", VStr "A"); ("Sales", VNum 20)];
      [("Month", VNum 202405); ("Region", VStr "A"); ("Sales", VNum 40)] ].



(** A table whose dates are numbers, and one with two regions. *)
Definition dates_as_numbers : DataFrame :=
  mkFrame ["Month"; "Region"; "Sales"]
    [ [("Month", VNum 202405); ("Region", VStr "A"); ("Sales", VNum 10)];
      [("Month", VNum 202406); ("Region", VStr "B"); ("Sales", VNum 20)] ].

Definition two_regions : DataFrame :=
  mkFrame ["Month"; "Region"; "Sales"]
    [ [("Month", VStr "2024 05 (May '24)"); ("Region", VStr "A"); ("Sales", VNum 10)];
      [("Month", VStr "2024 05 (May '24)"); ("Region", VStr "B"); ("Sales", VNum 5)];
      [("Month", VStr "2024 05 (May '24)"); ("Region", VStr "A"); ("Sales", VStr "n/a")];
      [("Month", VStr "2024 06 (Jun '24)"); ("Region", VStr "A"); ("Sales", VNum 7)] ].

(** The table [two_regions] summed by month and region, with the groups
    in the order of the sample instance. *)
Definition two_regions_sum : DataFrame :=
  mkFrame ["Formatted Month"; "Region"; "Sales"]
    [ [("Formatted Month", VStr "01-05-2024"); ("Region", VStr "B"); ("Sales", VNum 5)];
      [("Formatted Month", VStr "01-05-2024"); ("Region", VStr "A"); ("Sales", VNum 10)];
      [("Formatted Month", VStr "01-06-2024"); ("Region", VStr "A"); ("Sales", VNum 7)] ].

(** A table in which no entry of the numeric column is a number. *)
Definition sales_all_text : DataFrame :=
  mkFrame ["Month"; "Region"; "Sales"]
    [ [("Month", VStr "2024 05 (May '24)"); ("Region", VStr "A"); ("Sales", VStr "n/a")];
      [("Month", VStr "2024 05 (May '24)"); ("Region", VStr "A"); ("Sales", VNull)] ].

(** ** Two-digit and four-digit decimal texts *)





(** ** The monad *)

Lemma bind_ret_l {A B} (a : A) (f : A -> M B) : bind (ret a) f = f a.
Proof. unfold bind, ret. now destruct (f a). Qed.

Lemma bind_lift_ret {A B} (a : A) (f : A -> M B) : bind (lift (Ret a)) f = f a.
Proof. unfold bind, lift. now destruct (f a). Qed.

(** ** What the special pattern captures *)


(** ** [format_date] *)

Lemma format_date_try_silent (L : Externals) (v : value) : fst (format_date_try L v) = [].
Proof.
  unfold format_date_try, re_match, parser_parse.
  destruct v as [|s|q]; try reflexivity.
  rewrite bind_ret_l.
  destruct (re_match_special s) as [[y m]|].
  - unfold bind, lift. now destruct (pd_to_datetime _).
  - unfold bind, lift. now destruct (dateutil_parse L s).
Qed.

Lemma format_date_cases (L : Externals) (v : value) :
  format_date L v =
  if isna v then ([], Ret None)
  else match snd (format_date_try L v) with
       | Ret o => ([], Ret o)
       | Raise e => ([StError (ErrDateParse v e)], Ret None)
       end.
Proof.
  unfold format_date.
  destruct (isna v); [reflexivity|].
  pose proof (format_date_try_silent L v) as Hs.
  unfold try_except.
  destruct (format_date_try L v) as [w [o|e]]; simpl in *; now subst.
Qed.

Lemma format_date_returns (L : Externals) (v : value) :
  format_date L v = (date_log L v, Ret (date_value L v)).
Proof.
  unfold date_log, date_value.
  rewrite format_date_cases.
  destruct (isna v); [reflexivity|].
  now destruct (snd (format_date_try L v)).
Qed.

Lemma mapM_format_date (L : Externals) (vs : list value) :
  mapM (format_date L) vs = (flat_map (date_log L) vs, Ret (map (date_value L) vs)).
Proof.
  induction vs as [|v vs IH]; [reflexivity|].
  cbn [mapM flat_map map].
  rewrite format_date_returns, IH.
  unfold bind, ret. now rewrite app_nil_r.
Qed.

Lemma date_log_errors (L : Externals) (v : value) : date_errors_only (date_log L v).
Proof.
  unfold date_log, date_errors_only.
  rewrite format_date_cases.
  destruct (isna v); [constructor|].
  destruct (snd (format_date_try L v)); repeat constructor; eauto.
Qed.




(** C8.  [format_date] returns for every value and never raises: it is
    absent for a missing value; otherwise, when the [try] block raises,
    the exception is reported in one message that names the value, and
    the result is absent.  Applied to a column, it gives each cell the
    result of that cell alone. *)
Theorem format_date_never_raises (L : Externals) (v : value) :
  (format_date L v =
   if isna v then ([], Ret None)
   else match snd (format_date_try L v) with
        | Ret o => ([], Ret o)
        | Raise e => ([StError (ErrDateParse v e)], Ret None)
        end)
  /\ (exists log o, format_date L v = (log, Ret o))
  /\ (forall vs, snd (mapM (format_date L) vs) = Ret (map (date_value L) vs)).
Proof.
  split; [apply format_date_cases|].
  split.
  - rewrite format_date_returns. eauto.
  - intro vs. now rewrite mapM_format_date.
Qed.

(** ** [process_file]: the type of the file *)

Lemma process_file_reads (L : Externals) file sheet_name data date_col group_cols
    sum_cols agg_func fmt :
  reads_as L file sheet_name data ->
  process_file L file sheet_name date_col group_cols sum_cols agg_func fmt
  = process_table L data date_col group_cols sum_cols agg_func fmt.
Proof.
  unfold reads_as, process_file.
  destruct (endswith (name file) ".xlsx").
  - intros ->. now rewrite bind_lift_ret.
  - destruct (endswith (name file) ".csv"); [|tauto].
    intros ->. now rewrite bind_lift_ret.
Qed.

(** C9.  A file whose name ends in neither [.xlsx] nor [.csv] is
    reported as unsupported: the run stops with that one message, no
    table and no CSV.  A name in [.xlsx] is read with [read_excel] and
    the selected sheet, a name in [.csv] with [read_csv], and the table
    read is the one processed. *)
Theorem process_file_by_extension (L : Externals) file sheet_name date_col group_cols
    sum_cols agg_func fmt :
  let run := process_file L file sheet_name date_col group_cols sum_cols agg_func fmt in
  match endswith (name file) ".xlsx", endswith (name file) ".csv" with
  | false, false => run = ([StError ErrUnsupportedFile], Ret None)
  | true, _ =>
      forall data, read_excel L file sheet_name = Ret (Sheet data) ->
        run = process_table L data date_col group_cols sum_cols agg_func fmt
  | false, true =>
      forall data, read_csv L file = Ret data ->
        run = process_table L data date_col group_cols sum_cols agg_func fmt
  end.
Proof.
  intro run. subst run. unfold process_file.
  destruct (endswith (name file) ".xlsx").
  - intros data ->. now rewrite bind_lift_ret.
  - destruct (endswith (name file) ".csv").
    + intros data ->. now rewrite bind_lift_ret.
    + reflexivity.
Qed.

Lemma process_file_by_extension_witness :
  let S := sample_externals month_region_sales in
  process_file S (mkFile "report.pdf" "") None "Month" (Some ["Region"]) (Some ["Sales"])
    "sum" (format_date S) = ([StError ErrUnsupportedFile], Ret None)
  /\ process_file S sales_csv None "Month" (Some ["Region"]) (Some ["Sales"])
       "sum" (format_date S)
     = process_table S month_region_sales "Month" (Some ["Region"]) (Some ["Sales"])
         "sum" (format_date S)
  /\ process_file S (mkFile "book.xlsx" "") (Some "Sheet1") "Month" (Some ["Region"])
       (Some ["Sales"]) "sum" (format_date S)
     = process_table S month_region_sales "Month" (Some ["Region"]) (Some ["Sales"])
         "sum" (format_date S).
Proof.
  intro S. split; [|split].
  - exact (process_file_by_extension S (mkFile "report.pdf" "") None "Month"
             (Some ["Region"]) (Some ["Sales"]) "sum" (format_date S)).
  - exact (process_file_by_extension S sales_csv None "Month"
             (Some ["Region"]) (Some ["Sales"]) "sum" (format_date S)
             month_region_sales eq_refl).
  - exact (process_file_by_extension S (mkFile "book.xlsx" "") (Some "Sheet1") "Month"
             (Some ["Region"]) (Some ["Sales"]) "sum" (format_date S)
             month_region_sales eq_refl).
Defined.

(** ** The date step of [process_table] *)

Lemma mem_In (c : string) (cs : list string) : mem c cs = true <-> In c cs.
Proof.
  unfold mem. rewrite existsb_exists. split.
  - intros (x & Hx & He). apply String.eqb_eq in He. now subst.
  - intro H. exists c. split; [assumption | apply String.eqb_refl].
Qed.

Lemma mem_app (c : string) (xs ys : list string) : mem c (xs ++ ys) = mem c xs || mem c ys.
Proof. unfold mem. apply existsb_app. Qed.

Lemma combine_map_self {A B C} (f : A -> B -> C) (g : A -> B) (l : list A) :
  map (fun ab => f (fst ab) (snd ab)) (combine l (map g l)) = map (fun a => f a (g a)) l.
Proof. induction l as [|a l IH]; [reflexivity|]. cbn. now rewrite IH. Qed.

Lemma date_step_frame (L : Externals) (date_col : string) (data : DataFrame) :
  dropna_subset
    (setitem (dropna_all data) formatted_month
       (map of_option
          (map (date_value L) (map (fun r => lookup r date_col) (rows (dropna_all data))))))
    formatted_month
  = dated L date_col data.
Proof.
  unfold dropna_subset, setitem, dated, dated_rows.
  cbn [columns rows]. f_equal.
  rewrite !map_map.
  now rewrite (combine_map_self (fun r v => set_cell r formatted_month v)).
Qed.

Lemma process_table_dated (L : Externals) (data : DataFrame) date_col group_cols sum_cols
    agg_func :
  mem date_col (columns data) = true ->
  process_table L data date_col group_cols sum_cols agg_func (format_date L)
  = (available_columns_line data
       :: date_report L date_col data
       ++ fst (aggregate_block L (dated L date_col data) group_cols sum_cols agg_func),
     snd (aggregate_block L (dated L date_col data) group_cols sum_cols agg_func)).
Proof.
  intro Hcol. unfold process_table, getitem.
  cbn [columns dropna_all]. rewrite Hcol.
  unfold bind at 1. unfold emit.
  rewrite bind_lift_ret, mapM_format_date.
  unfold bind. rewrite date_step_frame.
  destruct (aggregate_block _ _ _ _ _) as [w r].
  reflexivity.
Qed.

Lemma date_report_errors (L : Externals) (date_col : string) (data : DataFrame) :
  date_errors_only (date_report L date_col data).
Proof.
  unfold date_report, date_errors_only.
  induction (map _ _) as [|v vs IH]; [constructor|].
  cbn [flat_map]. apply Forall_app. split; [apply date_log_errors | exact IH].
Qed.

Lemma date_errors_no_output (log : list event) :
  date_errors_only log -> existsb is_output log = false.
Proof.
  induction 1 as [|e log (v & x & ->) _ IH]; [reflexivity | exact IH].
Qed.

Lemma stopped_run_no_output (L : Externals) (date_col : string) (data : DataFrame)
    (m : message) :
  existsb is_output
    (available_columns_line data :: date_report L date_col data ++ [StError m]) = false.
Proof.
  cbn [existsb available_columns_line is_output orb].
  rewrite existsb_app, (date_errors_no_output _ (date_report_errors L date_col data)).
  reflexivity.
Qed.

Lemma mem_dated (L : Externals) (date_col : string) (data : DataFrame) (c : string) :
  mem c (columns (dated L date_col data))
  = mem c (columns data) || String.eqb c formatted_month.
Proof.
  unfold dated. cbn [columns].
  destruct (mem formatted_month (columns data)) eqn:Hfm.
  - destruct (String.eqb c formatted_month) eqn:He.
    + apply String.eqb_eq in He. subst. now rewrite Hfm.
    + now rewrite orb_false_r.
  - rewrite mem_app. unfold mem at 2. cbn [existsb]. now rewrite orb_false_r.
Qed.

(** ** Requested columns and the reduction name *)

Lemma missing_in_dated (L : Externals) (date_col : string) (data : DataFrame)
    (sum_cols : list string) :
  mem formatted_month sum_cols = false ->
  filter (fun col => negb (mem col (columns (dated L date_col data)))) sum_cols
  = filter (fun col => negb (mem col (columns data))) sum_cols.
Proof.
  intro Hfm. apply filter_ext_in. intros col Hin.
  rewrite mem_dated.
  destruct (String.eqb col formatted_month) eqn:He; [|now rewrite orb_false_r].
  apply String.eqb_eq in He. subst col.
  apply mem_In in Hin. congruence.
Qed.

Lemma none_missing_in_dated (L : Externals) (date_col : string) (data : DataFrame)
    (sum_cols : list string) :
  forallb (fun col => mem col (columns data)) sum_cols = true ->
  filter (fun col => negb (mem col (columns (dated L date_col data)))) sum_cols = [].
Proof.
  intro Hall. rewrite forallb_forall in Hall.
  induction sum_cols as [|col sum_cols IH]; [reflexivity|].
  cbn [filter]. rewrite mem_dated, (Hall col) by now left.
  cbn. apply IH. intros x Hx. apply Hall. now right.
Qed.

(** C2 (as amended).  When the file reads as a table that has the date
    column, and a non-empty list of numeric columns is requested that
    does not name the added column [Formatted Month], then, if a
    requested column is not in the table, the run stops with the
    "Missing columns" message, which names the requested columns that
    are not in the table, in the order of the request.  It returns no
    table; besides that message, the log holds the list of the
    available columns and the reports of dates that did not parse: no
    CSV is written or offered. *)
Theorem missing_columns_reported (L : Externals) file sheet_name data date_col group_cols
    (c : string) (cs : list string) agg_func :
  reads_as L file sheet_name data ->
  mem date_col (columns data) = true ->
  mem formatted_month (c :: cs) = false ->
  existsb (fun col => negb (mem col (columns data))) (c :: cs) = true ->
  process_file L file sheet_name date_col group_cols (Some (c :: cs)) agg_func
    (format_date L)
  = (available_columns_line data
       :: date_report L date_col data
       ++ [StError (ErrMissingColumns
                      (filter (fun col => negb (mem col (columns data))) (c :: cs)))],
     Ret None)
  /\ existsb is_output
       (fst (process_file L file sheet_name date_col group_cols (Some (c :: cs)) agg_func
               (format_date L))) = false.
Proof.
  intros Hread Hdate Hfm Hmiss.
  assert (Hrun : process_file L file sheet_name date_col group_cols (Some (c :: cs)) agg_func
                   (format_date L)
                 = (available_columns_line data
                      :: date_report L date_col data
                      ++ [StError (ErrMissingColumns
                                     (filter (fun col => negb (mem col (columns data)))
                                        (c :: cs)))],
                    Ret None)).
  { rewrite (process_file_reads _ _ _ _ _ _ _ _ _ Hread), process_table_dated by assumption.
    unfold aggregate_block.
    rewrite (missing_in_dated L date_col data (c :: cs) Hfm).
    destruct (filter _ (c :: cs)) as [|m ms] eqn:Hf; [|reflexivity].
    exfalso. apply existsb_exists in Hmiss as (x & Hx & Hneg).
    assert (Hin : In x (filter (fun col => negb (mem col (columns data))) (c :: cs)))
      by (apply filter_In; now split).
    rewrite Hf in Hin. destruct Hin. }
  rewrite Hrun. split; [reflexivity | apply stopped_run_no_output].
Qed.

Lemma missing_columns_reported_witness :
  let S := sample_externals month_region_sales in
  process_file S sales_csv None "Month" (Some ["Region"]) (Some ["Sales"; "Profit"; "Cost"])
    "sum" (format_date S)
  = ([available_columns_line month_region_sales;
      StError (ErrMissingColumns ["Profit"; "Cost"])], Ret None)
  /\ existsb is_output
       (fst (process_file S sales_csv None "Month" (Some ["Region"])
               (Some ["Sales"; "Profit"; "Cost"]) "sum" (format_date S))) = false.
Proof.
  intro S.
  apply (missing_columns_reported S sales_csv None month_region_sales "Month"
           (Some ["Region"]) "Sales" ["Profit"; "Cost"] "sum");
    reflexivity.
Defined.

(** C2 fails as stated.  The date column is read before the requested
    columns are checked: on a table without the date column (here the
    default, [Month]) the run raises KeyError and there is no "Missing
    columns" message, although the requested [Profit] is not in the
    table.  Nor is there one when the requested column is [Formatted
    Month], which the table does not have: the check finds the column
    that the date step added. *)
Lemma missing_columns_not_reported :
  let S := sample_externals date_sales in
  process_file S sales_csv None "Month" (Some []) (Some ["Profit"]) "sum" (format_date S)
  = ([available_columns_line date_sales], Raise (KeyError "Month"))
  /\ mem formatted_month (columns date_sales) = false
  /\ forallb (fun e => match e with StError (ErrMissingColumns _) => false | _ => true end)
       (fst (process_file S sales_csv None "Date" (Some []) (Some [formatted_month]) "sum"
               (format_date S))) = true.
Proof. intro S. repeat split. Qed.

(** C3 (as amended).  When the file reads as a table that has the date
    column, and the requested numeric columns are a non-empty list
    without repetition of columns of the table, a reduction name other
    than [sum], [mean] and [median] stops the run with the "Unsupported
    aggregation function" message.  It returns no table; besides that
    message, the log holds the list of the available columns and the
    reports of dates that did not parse: no CSV is written or
    offered. *)
Theorem unsupported_aggregation_reported (L : Externals) file sheet_name data date_col
    group_cols (c : string) (cs : list string) agg_func :
  reads_as L file sheet_name data ->
  mem date_col (columns data) = true ->
  forallb (fun col => mem col (columns data)) (c :: cs) = true ->
  distinct (c :: cs) = true ->
  reduction_of agg_func = None ->
  process_file L file sheet_name date_col group_cols (Some (c :: cs)) agg_func
    (format_date L)
  = (available_columns_line data
       :: date_report L date_col data ++ [StError ErrUnsupportedAgg],
     Ret None)
  /\ existsb is_output
       (fst (process_file L file sheet_name date_col group_cols (Some (c :: cs)) agg_func
               (format_date L))) = false.
Proof.
  intros Hread Hdate Hall Hdistinct Hagg.
  assert (Hrun : process_file L file sheet_name date_col group_cols (Some (c :: cs)) agg_func
                   (format_date L)
                 = (available_columns_line data
                      :: date_report L date_col data ++ [StError ErrUnsupportedAgg],
                    Ret None)).
  { rewrite (process_file_reads _ _ _ _ _ _ _ _ _ Hread), process_table_dated by assumption.
    unfold aggregate_block.
    rewrite (none_missing_in_dated L date_col data (c :: cs) Hall).
    unfold coerce_columns. rewrite Hdistinct, bind_lift_ret, Hagg.
    reflexivity. }
  rewrite Hrun. split; [reflexivity | apply stopped_run_no_output].
Qed.

Lemma unsupported_aggregation_reported_witness :
  let S := sample_externals month_region_sales in
  process_file S sales_csv None "Month" (Some ["Region"]) (Some ["Sales"]) "max"
    (format_date S)
  = ([available_columns_line month_region_sales; StError ErrUnsupportedAgg], Ret None)
  /\ existsb is_output
       (fst (process_file S sales_csv None "Month" (Some ["Region"]) (Some ["Sales"]) "max"
               (format_date S))) = false.
Proof.
  intro S.
  apply (unsupported_aggregation_reported S sales_csv None month_region_sales "Month"
           (Some ["Region"]) "Sales" [] "max");
    reflexivity.
Defined.

(** C3 fails as stated.  The reduction name is looked at only once the
    numeric columns are there: with none selected ([sum_cols] at its
    default), the name [max] is not reported; the message is "No
    columns selected for summing". *)
Lemma unsupported_aggregation_not_reported :
  let S := sample_externals month_region_sales in
  process_file S sales_csv None "Month" (Some ["Region"]) None "max" (format_date S)
  = ([available_columns_line month_region_sales; StError ErrNoColumns], Ret None).
Proof. intro S. reflexivity. Qed.

(** ** Cells, rows and lists *)

Lemma lookup_set_same (r : row) (c : string) (v : value) : lookup (set_cell r c v) c = v.
Proof.
  induction r as [|[c' v'] r IH]; cbn.
  - now rewrite String.eqb_refl.
  - destruct (String.eqb c' c) eqn:He; cbn; now rewrite He.
Qed.

Lemma lookup_set_other (r : row) (c c' : string) (v : value) :
  c' <> c -> lookup (set_cell r c v) c' = lookup r c'.
Proof.
  intro Hne. induction r as [|[c0 v0] r IH]; cbn.
  - apply String.eqb_neq in Hne. rewrite String.eqb_sym. now rewrite Hne.
  - destruct (String.eqb c0 c) eqn:He; cbn.
    + apply String.eqb_eq in He. subst c0.
      destruct (String.eqb c c') eqn:He'; [|reflexivity].
      apply String.eqb_eq in He'. congruence.
    + now rewrite IH.
Qed.

Lemma lookup_coerce_row (L : Externals) (cols : list string) (r : row) (c : string) :
  lookup (coerce_row L cols r) c
  = if mem c cols then to_numeric L (lookup r c) else lookup r c.
Proof.
  unfold coerce_row.
  enough (H : forall acc,
             lookup (fold_left (fun r' x => set_cell r' x (to_numeric L (lookup r x))) cols acc) c
             = if mem c cols then to_numeric L (lookup r c) else lookup acc c)
    by apply H.
  induction cols as [|x cols IH]; intro acc; [reflexivity|].
  cbn [fold_left]. rewrite IH. unfold mem. cbn [existsb]. fold (mem c cols).
  destruct (mem c cols); [now rewrite orb_true_r|].
  rewrite orb_false_r.
  destruct (String.eqb c x) eqn:He.
  - apply String.eqb_eq in He. subst x. apply lookup_set_same.
  - apply lookup_set_other. now apply String.eqb_neq.
Qed.

Lemma distinct_app (xs ys : list string) :
  distinct (xs ++ ys) = true ->
  distinct xs = true /\ distinct ys = true /\ forall c, In c xs -> mem c ys = false.
Proof.
  induction xs as [|x xs IH]; cbn [app distinct].
  - intro H. repeat split; [assumption | intros c []].
  - intro H. apply andb_true_iff in H as [Hx H].
    destruct (IH H) as (Hxs & Hys & Hdis).
    rewrite mem_app in Hx. apply negb_true_iff, orb_false_iff in Hx as [Hx1 Hx2].
    repeat split; [now rewrite Hx1 | assumption |].
    intros c [<- | Hc]; [assumption | now apply Hdis].
Qed.

Lemma lookup_combine (names : list string) (vals : list value) :
  distinct names = true -> List.length vals = List.length names ->
  map (lookup (combine names vals)) names = vals.
Proof.
  revert vals. induction names as [|n names IH]; intros [|v vals] Hd Hlen;
    try discriminate; [reflexivity|].
  cbn [distinct] in Hd. apply andb_true_iff in Hd as [Hn Hd].
  apply negb_true_iff in Hn.
  cbn [combine map lookup]. rewrite String.eqb_refl. f_equal.
  transitivity (map (lookup (combine names vals)) names);
    [|apply IH; [assumption | cbn in Hlen; congruence]].
  apply map_ext_in. intros c Hc.
  destruct (String.eqb n c) eqn:He; [|reflexivity].
  apply String.eqb_eq in He. subst c. apply mem_In in Hc. congruence.
Qed.

Lemma app_eq_length {A} (a c b d : list A) :
  List.length a = List.length c -> a ++ b = c ++ d -> a = c /\ b = d.
Proof.
  revert c. induction a as [|x a IH]; intros [|y c] Hlen H; try discriminate.
  - now split.
  - cbn in H. injection H as -> H. cbn in Hlen.
    destruct (IH c) as [-> ->]; [congruence | assumption | now split].
Qed.

Lemma filter_map_swap {A B} (p : B -> bool) (f : A -> B) (l : list A) :
  filter p (map f l) = map f (filter (fun a => p (f a)) l).
Proof.
  induction l as [|a l IH]; [reflexivity|].
  cbn. destruct (p (f a)); cbn; now rewrite IH.
Qed.



(** The rows the date step keeps are the rows, not all empty, whose
    date is normalized. *)
Lemma dated_rows_good (L : Externals) (date_col : string) (data : DataFrame) :
  dated_rows L date_col data
  = map (fun r => set_cell r formatted_month (of_option (date_value L (lookup r date_col))))
      (filter (fun r => is_some (date_value L (lookup r date_col)))
         (rows (dropna_all data))).
Proof.
  unfold dated_rows. rewrite filter_map_swap. f_equal.
  apply filter_ext. intro r. rewrite lookup_set_same.
  now destruct (date_value L (lookup r date_col)).
Qed.

Lemma process_table_no_date_column (L : Externals) (data : DataFrame) date_col group_cols
    sum_cols agg_func fmt :
  mem date_col (columns data) = false ->
  process_table L data date_col group_cols sum_cols agg_func fmt
  = ([available_columns_line data], Raise (KeyError date_col)).
Proof.
  intro Hcol. unfold process_table, getitem.
  cbn [columns dropna_all]. now rewrite Hcol.
Qed.

(** ** Rows without a date *)




(** The table of [dates_missing], summed: the row without a date and
    the row whose date is a number are left out, and only the second of
    them is reported. *)
Example dates_missing_sum :
  process_file (sample_externals dates_missing) sales_csv None "Month" (Some ["Region"])
    (Some ["Sales"]) "sum" (format_date (sample_externals dates_missing))
  = (available_columns_line dates_missing
       :: StError (ErrDateParse (VNum 202405) TypeError)
       :: output_events (sample_externals dates_missing)
            (mkFrame ["Formatted Month"; "Region"; "Sales"]
               [ [("Formatted Month", VStr "01-05-2024"); ("Region", VStr "A");
                  ("Sales", VNum 10)] ]),
     Ret (Some (mkFrame ["Formatted Month"; "Region"; "Sales"]
                  [ [("Formatted Month", VStr "01-05-2024"); ("Region", VStr "A");
                     ("Sales", VNum 10)] ]))).
Proof. reflexivity. Qed.

(** ** Grouping *)



Lemma key_of_coerce_row (L : Externals) (keys sum_cols : list string) (r : row) :
  (forall c, In c keys -> mem c sum_cols = false) ->
  key_of keys (coerce_row L sum_cols r) = key_of keys r.
Proof.
  intro Hdis. unfold key_of. apply map_ext_in. intros c Hc.
  now rewrite lookup_coerce_row, (Hdis c Hc).
Qed.

Lemma In_group_keys (L : Externals) (keys : list string) (rs : list row) (k : list value) :
  In k (group_keys L keys rs)
  <-> has_null k = false /\ exists r, In r rs /\ key_of keys r = k.
Proof.
  unfold group_keys.
  split.
  - intro H. apply (Permutation_in _ (sort_keys_perm L _)) in H.
    apply nodup_In, filter_In in H as [Hin Hnull].
    apply in_map_iff in Hin as (r & Hr & Hin).
    split; [now apply negb_true_iff in Hnull | eauto].
  - intros (Hnull & r & Hin & Hr).
    apply (Permutation_in _ (Permutation_sym (sort_keys_perm L _))).
    apply nodup_In, filter_In. split.
    + apply in_map_iff. eauto.
    + now rewrite Hnull.
Qed.



Lemma groupby_agg_inv (L : Externals) (data : DataFrame) (keys sum_cols : list string)
    (f : reduction) (out : DataFrame) :
  groupby_agg L data keys sum_cols f = Ret out ->
  distinct (keys ++ sum_cols) = true
  /\ out = mkFrame (keys ++ sum_cols)
             (map (agg_row keys sum_cols f (rows data)) (group_keys L keys (rows data))).
Proof.
  unfold groupby_agg.
  destruct (find _ keys); [discriminate|].
  destruct (distinct _); [|discriminate].
  intros [= <-]. now split.
Qed.

Lemma groupby_agg_ok (L : Externals) (data : DataFrame) (keys sum_cols : list string)
    (f : reduction) :
  forallb (fun k => mem k (columns data)) keys = true ->
  distinct (keys ++ sum_cols) = true ->
  groupby_agg L data keys sum_cols f
  = Ret (mkFrame (keys ++ sum_cols)
           (map (agg_row keys sum_cols f (rows data)) (group_keys L keys (rows data)))).
Proof.
  intros Hall Hd. unfold groupby_agg. rewrite Hd.
  destruct (find _ keys) as [k|] eqn:Hf; [|reflexivity].
  apply find_some in Hf as [Hin Hk].
  rewrite forallb_forall in Hall. rewrite (Hall k Hin) in Hk. discriminate.
Qed.


Lemma aggregate_block_inv (L : Externals) (data : DataFrame) group_cols sum_cols agg_func
    (log : list event) (out : DataFrame) :
  aggregate_block L data group_cols sum_cols agg_func = (log, Ret (Some out)) ->
  exists g cs f,
    group_cols = Some g /\ sum_cols = Some cs /\ cs <> []
    /\ reduction_of agg_func = Some f
    /\ groupby_agg L (mkFrame (columns data) (map (coerce_row L cs) (rows data)))
         (formatted_month :: g) cs f = Ret out
    /\ log = output_events L out.
Proof.
  unfold aggregate_block.
  destruct sum_cols as [[|c cs]|]; try discriminate.
  destruct (filter _ (c :: cs)); [|discriminate].
  unfold coerce_columns.
  destruct (distinct (c :: cs)); [|discriminate].
  rewrite bind_lift_ret.
  destruct (reduction_of agg_func) as [f|]; [|discriminate].
  destruct group_cols as [g|]; [|discriminate].
  cbn [group_key_columns]. rewrite bind_lift_ret.
  destruct (groupby_agg _ _ _ _ _) as [o|e] eqn:Hg; [|discriminate].
  rewrite bind_lift_ret.
  intros [= <- <-].
  exists g, (c :: cs), f. repeat split; try assumption; discriminate.
Qed.

Lemma aggregate_block_ok (L : Externals) (data : DataFrame) (g : list string)
    (c : string) (cs : list string) agg_func (f : reduction) (out : DataFrame) :
  filter (fun col => negb (mem col (columns data))) (c :: cs) = [] ->
  distinct (c :: cs) = true ->
  reduction_of agg_func = Some f ->
  groupby_agg L (mkFrame (columns data) (map (coerce_row L (c :: cs)) (rows data)))
    (formatted_month :: g) (c :: cs) f = Ret out ->
  aggregate_block L data (Some g) (Some (c :: cs)) agg_func
  = (output_events L out, Ret (Some out)).
Proof.
  intros Hmiss Hd Hf Hg. unfold aggregate_block, coerce_columns.
  rewrite Hmiss, Hd, bind_lift_ret, Hf.
  cbn [group_key_columns]. now rewrite bind_lift_ret, Hg, bind_lift_ret.
Qed.

(** A successful run, taken apart. *)
Lemma process_table_success_inv (L : Externals) (data : DataFrame) date_col group_cols
    sum_cols agg_func (log : list event) (out : DataFrame) :
  process_table L data date_col group_cols sum_cols agg_func (format_date L)
  = (log, Ret (Some out)) ->
  exists g cs f,
    group_cols = Some g /\ sum_cols = Some cs /\ cs <> []
    /\ mem date_col (columns data) = true
    /\ reduction_of agg_func = Some f
    /\ distinct (formatted_month :: g ++ cs) = true
    /\ out = mkFrame (formatted_month :: g ++ cs)
               (map (agg_row (formatted_month :: g) cs f
                       (map (coerce_row L cs) (dated_rows L date_col data)))
                  (group_keys L (formatted_month :: g)
                     (map (coerce_row L cs) (dated_rows L date_col data))))
    /\ log = available_columns_line data :: date_report L date_col data
                ++ output_events L out.
Proof.
  intro Hrun.
  destruct (mem date_col (columns data)) eqn:Hcol;
    [|rewrite process_table_no_date_column in Hrun by assumption; discriminate].
  rewrite process_table_dated in Hrun by assumption.
  destruct (aggregate_block _ _ _ _ _) as [w r] eqn:Hagg.
  cbn [fst snd] in Hrun. injection Hrun as <- ->.
  apply aggregate_block_inv in Hagg as (g & cs & f & -> & -> & Hne & Hf & Hg & ->).
  apply groupby_agg_inv in Hg as [Hd ->].
  exists g, cs, f. cbn [rows dated] in *. repeat split; assumption.
Qed.

(** The cells of a row of the aggregated table. *)
Lemma agg_row_cells (keys sum_cols : list string) (f : reduction) (rs : list row)
    (k : list value) :
  distinct (keys ++ sum_cols) = true -> List.length k = List.length keys ->
  key_of keys (agg_row keys sum_cols f rs k) = k
  /\ forall c, In c sum_cols ->
       lookup (agg_row keys sum_cols f rs k) c = reduce f (numbers c (group keys rs k)).
Proof.
  intros Hd Hlen.
  pose proof (lookup_combine (keys ++ sum_cols)
                (k ++ map (fun c => reduce f (numbers c (group keys rs k))) sum_cols) Hd)
    as Hall.
  rewrite !length_app, length_map, Hlen in Hall. specialize (Hall eq_refl).
  fold (agg_row keys sum_cols f rs k) in Hall.
  rewrite map_app in Hall.
  apply app_eq_length in Hall as [Hk Hc]; [|now rewrite length_map].
  split; [exact Hk|].
  intros c Hin. exact (ext_in_map Hc c Hin).
Qed.

Lemma group_key_length (L : Externals) (keys : list string) (rs : list row)
    (k : list value) :
  In k (group_keys L keys rs) -> List.length k = List.length keys.
Proof.
  intro H. apply In_group_keys in H as (_ & r & _ & <-).
  unfold key_of. apply length_map.
Qed.

Lemma distinct_keys_facts (g cs : list string) :
  distinct (formatted_month :: g ++ cs) = true ->
  mem formatted_month g = false /\ distinct cs = true
  /\ forall c, In c (formatted_month :: g) -> mem c cs = false.
Proof.
  cbn [distinct]. intro H. apply andb_true_iff in H as [Hfm H].
  apply negb_true_iff in Hfm. rewrite mem_app in Hfm.
  apply orb_false_iff in Hfm as [Hg Hcs].
  destruct (distinct_app _ _ H) as (_ & Hd & Hdis).
  repeat split; try assumption.
  intros c [<- | Hc]; [assumption | now apply Hdis].
Qed.






(** ** The aggregated table *)





(** ** Entries that are no numbers *)

Lemma numbers_coerced (L : Externals) (cs : list string) (c : string) (rs : list row) :
  mem c cs = true ->
  numbers c (map (coerce_row L cs) rs) = numeric_entries L c rs.
Proof.
  intro Hc. unfold numbers, numeric_entries.
  induction rs as [|r rs IH]; [reflexivity|].
  cbn [map flat_map]. now rewrite IH, lookup_coerce_row, Hc.
Qed.

Lemma group_coerced (L : Externals) (keys cs : list string) (rs : list row)
    (k : list value) :
  (forall c, In c keys -> mem c cs = false) ->
  group keys (map (coerce_row L cs) rs) k = map (coerce_row L cs) (group keys rs k).
Proof.
  intro Hdis. unfold group. rewrite filter_map_swap. f_equal.
  apply filter_ext. intro r. now rewrite key_of_coerce_row.
Qed.



(** The table of [sales_not_numeric], summed: the entry [n/a] is left
    out and the text [20] counts as a number. *)
Example sales_not_numeric_sum :
  let S := sample_externals sales_not_numeric in
  snd (process_file S sales_csv None "Month" (Some ["Region"]) (Some ["Sales"]) "sum"
         (format_date S))
  = Ret (Some (mkFrame ["Formatted Month"; "Region"; "Sales"]
                 [ [("Formatted Month", VStr "01-05-2024"); ("Region", VStr "A");
                    ("Sales", VNum 30)] ])).
Proof. reflexivity. Qed.

(** ** Writing the CSV and reading it back *)

Lemma string_app_nil_r (s : string) : (s ++ "")%string = s.
Proof. induction s as [|c s IH]; [reflexivity|]. cbn. now rewrite IH. Qed.

Lemma string_app_assoc (a b c : string) : ((a ++ b) ++ c)%string = (a ++ (b ++ c))%string.
Proof. induction a as [|x a IH]; [reflexivity|]. cbn. now rewrite IH. Qed.

Lemma special_false (L : Externals) (c : ascii) :
  special L c = false ->
  Ascii.eqb c comma = false /\ Ascii.eqb c LF = false /\ Ascii.eqb c dquote = false.
Proof.
  unfold special. intro H.
  apply orb_false_iff in H as [H _].
  apply orb_false_iff in H as [H Hlf].
  apply orb_false_iff in H as [Hcomma Hquote].
  now repeat split.
Qed.

Lemma parse_unquoted_run (L : Externals) (f : string) :
  needs_quote L f = false ->
  forall field record records rest,
    parse_csv_from Unquoted field record records (f ++ rest)%string
    = parse_csv_from Unquoted (field ++ f)%string record records rest.
Proof.
  induction f as [|c f IH]; intros Hq field record records rest.
  - now rewrite string_app_nil_r.
  - cbn [needs_quote] in Hq. apply orb_false_iff in Hq as [Hc Hq].
    destruct (special_false L c Hc) as (H1 & H2 & H3).
    cbn [append parse_csv_from]. rewrite H1, H2, H3.
    rewrite (IH Hq), string_app_assoc. reflexivity.
Qed.

Lemma parse_quoted_run (f : string) :
  forall field record records more,
    parse_csv_from Quoted field record records
      (double_quotes f ++ String dquote more)%string
    = parse_csv_from QuoteSeen (field ++ f)%string record records more.
Proof.
  induction f as [|c f IH]; intros field record records more.
  - cbn [double_quotes append parse_csv_from].
    now rewrite Ascii.eqb_refl, string_app_nil_r.
  - cbn [double_quotes]. destruct (Ascii.eqb c dquote) eqn:Hc.
    + apply Ascii.eqb_eq in Hc. subst c.
      cbn [append parse_csv_from]. rewrite Ascii.eqb_refl.
      rewrite IH, string_app_assoc. reflexivity.
    + cbn [append parse_csv_from]. rewrite Hc.
      rewrite IH, string_app_assoc. reflexivity.
Qed.

(** A field as the writer prints it, followed by a comma: the reader
    adds the field to the record. *)
Lemma parse_field_comma (L : Externals) (f : string) (record : list string) records rest :
  parse_csv_from FieldStart "" record records (quote_field L f ++ String comma rest)%string
  = parse_csv_from FieldStart "" (record ++ [f]) records rest.
Proof.
  unfold quote_field. destruct (needs_quote L f) eqn:Hq.
  - cbn [append parse_csv_from].
    replace (Ascii.eqb dquote comma) with false by reflexivity.
    replace (Ascii.eqb dquote LF) with false by reflexivity.
    rewrite Ascii.eqb_refl, string_app_assoc. cbn [append].
    rewrite parse_quoted_run. cbn [append parse_csv_from].
    replace (Ascii.eqb comma dquote) with false by reflexivity.
    now rewrite Ascii.eqb_refl.
  - destruct f as [|c f].
    + cbn [append parse_csv_from]. now rewrite Ascii.eqb_refl.
    + cbn [needs_quote] in Hq. apply orb_false_iff in Hq as [Hc Hq].
      destruct (special_false L c Hc) as (H1 & H2 & H3).
      cbn [append parse_csv_from]. rewrite H1, H2, H3.
      rewrite (parse_unquoted_run L f Hq). cbn [append parse_csv_from].
      now rewrite Ascii.eqb_refl.
Qed.

(** A field followed by the line feed: the reader closes the record. *)
Lemma parse_field_LF (L : Externals) (f : string) (record : list string) records rest :
  parse_csv_from FieldStart "" record records (quote_field L f ++ String LF rest)%string
  = parse_csv_from FieldStart "" [] (records ++ [record ++ [f]]) rest.
Proof.
  unfold quote_field. destruct (needs_quote L f) eqn:Hq.
  - cbn [append parse_csv_from].
    replace (Ascii.eqb dquote comma) with false by reflexivity.
    replace (Ascii.eqb dquote LF) with false by reflexivity.
    rewrite Ascii.eqb_refl, string_app_assoc. cbn [append].
    rewrite parse_quoted_run. cbn [append parse_csv_from].
    replace (Ascii.eqb LF dquote) with false by reflexivity.
    replace (Ascii.eqb LF comma) with false by reflexivity.
    now rewrite Ascii.eqb_refl.
  - destruct f as [|c f].
    + cbn [append parse_csv_from].
      replace (Ascii.eqb LF comma) with false by reflexivity.
      now rewrite Ascii.eqb_refl.
    + cbn [needs_quote] in Hq. apply orb_false_iff in Hq as [Hc Hq].
      destruct (special_false L c Hc) as (H1 & H2 & H3).
      cbn [append parse_csv_from]. rewrite H1, H2, H3.
      rewrite (parse_unquoted_run L f Hq). cbn [append parse_csv_from].
      replace (Ascii.eqb LF comma) with false by reflexivity.
      now rewrite Ascii.eqb_refl.
Qed.

Lemma parse_join_fields (L : Externals) (fields : list string) :
  fields <> [] ->
  forall record records rest,
    parse_csv_from FieldStart "" record records (join_fields L fields ++ rest)%string
    = parse_csv_from FieldStart "" [] (records ++ [record ++ fields]) rest.
Proof.
  induction fields as [|f fields IH]; [congruence|].
  intros _ record records rest.
  destruct fields as [|g fields].
  - cbn [join_fields]. rewrite string_app_assoc. cbn [append].
    apply parse_field_LF.
  - change (join_fields L (f :: g :: fields))
      with (quote_field L f ++ String comma (join_fields L (g :: fields)))%string.
    rewrite string_app_assoc. cbn [append].
    rewrite parse_field_comma, IH by discriminate.
    now rewrite <- app_assoc.
Qed.

Lemma parse_write_row (L : Externals) (fields : list string) records rest :
  fields <> [] ->
  parse_csv_from FieldStart "" [] records (write_row L fields ++ rest)%string
  = parse_csv_from FieldStart "" [] (records ++ [fields]) rest.
Proof.
  intro Hne.
  assert (Hjoin : parse_csv_from FieldStart "" [] records (join_fields L fields ++ rest)%string
                  = parse_csv_from FieldStart "" [] (records ++ [fields]) rest)
    by (now rewrite parse_join_fields).
  destruct fields as [|f fields]; [exact Hjoin|].
  destruct f; [|exact Hjoin].
  destruct fields; [reflexivity | exact Hjoin].
Qed.

Lemma parse_write_rows (L : Externals) (recs : list (list string)) :
  Forall (fun fields => fields <> []) recs ->
  forall records,
    parse_csv_from FieldStart "" [] records (write_rows L recs) = Some (records ++ recs).
Proof.
  induction 1 as [|fields recs Hne _ IH]; intro records.
  - cbn. now rewrite app_nil_r.
  - cbn [write_rows fold_right]. fold (write_rows L recs).
    rewrite parse_write_row by assumption.
    rewrite IH, <- app_assoc. reflexivity.
Qed.

Lemma to_records_not_empty (L : Externals) (data : DataFrame) :
  columns data <> [] -> Forall (fun fields => fields <> []) (to_records L data).
Proof.
  intro Hne. unfold to_records. constructor; [assumption|].
  apply Forall_forall. intros fields Hin.
  apply in_map_iff in Hin as (r & <- & _).
  destruct (columns data); [congruence | discriminate].
Qed.

Lemma to_csv_read_back (L : Externals) (data : DataFrame) :
  columns data <> [] -> parse_csv (to_csv L data) = Some (to_records L data).
Proof.
  intro Hne. unfold parse_csv, to_csv.
  now rewrite parse_write_rows by now apply to_records_not_empty.
Qed.

(** C7 (as amended).  In a successful run the CSV offered for download
    is the one written for the aggregated table, and reading it back as
    comma-separated text gives the header, which is the list of the
    columns of the aggregated table, and then, row by row, the texts of
    its cells as they were written. *)
Theorem csv_read_back_as_text (L : Externals) file sheet_name data date_col group_cols
    sum_cols agg_func (log : list event) (out : DataFrame) :
  reads_as L file sheet_name data ->
  process_file L file sheet_name date_col group_cols sum_cols agg_func (format_date L)
  = (log, Ret (Some out)) ->
  In (StDownloadButton "Download Cleaned Data" (to_csv L out) output_file_path "text/csv") log
  /\ In (ToCsvFile output_file_path (to_csv L out)) log
  /\ (forall label csv file_name mime,
        In (StDownloadButton label csv file_name mime) log ->
        parse_csv csv = Some (to_records L out))
  /\ (forall path csv,
        In (ToCsvFile path csv) log -> parse_csv csv = Some (to_records L out)).
Proof.
  intros Hread Hrun.
  rewrite (process_file_reads _ _ _ _ _ _ _ _ _ Hread) in Hrun.
  apply process_table_success_inv in Hrun
    as (g & cs & f & _ & _ & _ & _ & _ & _ & Hout & ->).
  assert (Hback : parse_csv (to_csv L out) = Some (to_records L out))
    by (apply to_csv_read_back; rewrite Hout; discriminate).
  pose proof (date_report_errors L date_col data) as Herr.
  unfold date_errors_only in Herr. rewrite Forall_forall in Herr.
  repeat split.
  - right. apply in_or_app. right. cbn. auto.
  - right. apply in_or_app. right. cbn. auto.
  - intros label csv file_name mime [Hin | Hin]; [discriminate|].
    apply in_app_or in Hin as [Hin | Hin].
    + destruct (Herr _ Hin) as (v & x & Hv). discriminate.
    + cbn in Hin. destruct Hin as [Hin | [Hin | [Hin | []]]]; try discriminate.
      injection Hin as _ <- _ _. exact Hback.
  - intros path csv [Hin | Hin]; [discriminate|].
    apply in_app_or in Hin as [Hin | Hin].
    + destruct (Herr _ Hin) as (v & x & Hv). discriminate.
    + cbn in Hin. destruct Hin as [Hin | [Hin | [Hin | []]]]; try discriminate.
      injection Hin as _ <-. exact Hback.
Qed.

Lemma csv_read_back_as_text_witness :
  let S := sample_externals month_region_sales in
  let out := mkFrame ["Formatted Month"; "Region"; "Sales"]
               [ [("Formatted Month", VStr "01-05-2024"); ("Region", VStr "A");
                  ("Sales", VNum 30)] ] in
  parse_csv (to_csv S out)
  = Some [ ["Formatted Month"; "Region"; "Sales"]; ["01-05-2024"; "A"; "30"] ].
Proof.
  intros S out.
  exact (proj1 (proj2 (proj2
           (csv_read_back_as_text S sales_csv None month_region_sales "Month"
              (Some ["Region"]) (Some ["Sales"]) "sum" _ out eq_refl eq_refl)))
           _ _ _ _ (or_intror (or_intror (or_intror (or_introl eq_refl))))).
Defined.

(** C7 fails as stated: no reading back gives the aggregated table of
    every successful run.  The CSV does not tell a number from the text
    that prints the same: the runs on [region_as_number] and on
    [region_as_text] give two different tables and the same CSV. *)
Lemma csv_read_back_not_exact :
  ~ exists read_back : string -> option DataFrame,
      forall L file sheet_name date_col group_cols sum_cols agg_func log out,
        process_file L file sheet_name date_col group_cols sum_cols agg_func (format_date L)
        = (log, Ret (Some out)) ->
        read_back (to_csv L out) = Some out.
Proof.
  intros [read_back H].
  set (number := mkFrame ["Formatted Month"; "Region"; "Sales"]
                   [ [("Formatted Month", VStr "01-05-2024"); ("Region", VNum 7);
                      ("Sales", VNum 10)] ]).
  set (text := mkFrame ["Formatted Month"; "Region"; "Sales"]
                 [ [("Formatted Month", VStr "01-05-2024"); ("Region", VStr "7");
                    ("Sales", VNum 10)] ]).
  pose proof (H (sample_externals region_as_number) sales_csv None "Month"
                (Some ["Region"]) (Some ["Sales"]) "sum" _ number eq_refl) as Hnumber.
  pose proof (H (sample_externals region_as_text) sales_csv None "Month"
                (Some ["Region"]) (Some ["Sales"]) "sum" _ text eq_refl) as Htext.
  change (to_csv (sample_externals region_as_text) text)
    with (to_csv (sample_externals region_as_number) number) in Htext.
  rewrite Hnumber in Htext. discriminate Htext.
Qed.

(** The example of the specification: two rows of one month and one
    region, summed into one row. *)
Example month_region_sales_sum :
  process_file (sample_externals month_region_sales) sales_csv None "Month"
    (Some ["Region"]) (Some ["Sales"]) "sum"
    (format_date (sample_externals month_region_sales))
  = (available_columns_line month_region_sales
       :: output_events (sample_externals month_region_sales)
            (mkFrame ["Formatted Month"; "Region"; "Sales"]
               [ [("Formatted Month", VStr "01-05-2024"); ("Region", VStr "A");
                  ("Sales", VNum 30)] ]),
     Ret (Some (mkFrame ["Formatted Month"; "Region"; "Sales"]
                  [ [("Formatted Month", VStr "01-05-2024"); ("Region", VStr "A");
                     ("Sales", VNum 30)] ]))).
Proof. reflexivity. Qed.

(** * Further properties of [format_date] and [process_file] *)

(** ** The special pattern: what follows it, and a conversion that fails *)









(** ** Requests that stop [process_file] *)

(** X3.  On a table that has no column of the name given as date
    column, [process_file] raises KeyError for that name, whatever else
    is requested: the list of the available columns is all it shows. *)
Theorem date_column_missing_raises (L : Externals) file sheet_name (data : DataFrame)
    date_col group_cols sum_cols agg_func :
  reads_as L file sheet_name data ->
  mem date_col (columns data) = false ->
  process_file L file sheet_name date_col group_cols sum_cols agg_func (format_date L)
  = ([available_columns_line data], Raise (KeyError date_col)).
Proof.
  intros Hread Hcol.
  rewrite (process_file_reads _ _ _ _ _ _ _ _ _ Hread).
  unfold process_table, getitem. cbn [columns dropna_all]. now rewrite Hcol.
Qed.

Lemma date_column_missing_raises_witness :
  let S := sample_externals date_sales in
  process_file S sales_csv None "Month" (Some []) (Some ["Sales"]) "sum" (format_date S)
  = ([available_columns_line date_sales], Raise (KeyError "Month")).
Proof.
  intro S.
  exact (date_column_missing_raises S sales_csv None date_sales "Month" (Some [])
           (Some ["Sales"]) "sum" eq_refl eq_refl).
Defined.

(** X4.  With no numeric column selected, be it the default None or an
    empty list, [process_file] stops with "No columns selected for
    summing" once the dates are normalized, whatever the group columns
    and the reduction name are: it returns no table and no CSV is
    written or offered. *)
Theorem no_numeric_columns_reported (L : Externals) file sheet_name (data : DataFrame)
    date_col group_cols sum_cols agg_func :
  reads_as L file sheet_name data ->
  mem date_col (columns data) = true ->
  sum_cols = None \/ sum_cols = Some [] ->
  process_file L file sheet_name date_col group_cols sum_cols agg_func (format_date L)
  = (available_columns_line data :: date_report L date_col data ++ [StError ErrNoColumns],
     Ret None)
  /\ existsb is_output
       (fst (process_file L file sheet_name date_col group_cols sum_cols agg_func
               (format_date L))) = false.
Proof.
  intros Hread Hcol Hnone.
  assert (Hrun : process_file L file sheet_name date_col group_cols sum_cols agg_func
                   (format_date L)
                 = (available_columns_line data
                      :: date_report L date_col data ++ [StError ErrNoColumns],
                    Ret None)).
  { rewrite (process_file_reads _ _ _ _ _ _ _ _ _ Hread), process_table_dated by assumption.
    destruct Hnone as [-> | ->]; reflexivity. }
  rewrite Hrun. split; [reflexivity | apply stopped_run_no_output].
Qed.

Lemma no_numeric_columns_reported_witness :
  let S := sample_externals dates_missing in
  process_file S sales_csv None "Month" (Some ["Region"]) (Some []) "sum" (format_date S)
  = ([available_columns_line dates_missing;
      StError (ErrDateParse (VNum 202405) TypeError);
      StError ErrNoColumns], Ret None)
  /\ existsb is_output
       (fst (process_file S sales_csv None "Month" (Some ["Region"]) (Some []) "sum"
               (format_date S))) = false.
Proof.
  intro S.
  exact (no_numeric_columns_reported S sales_csv None dates_missing "Month"
           (Some ["Region"]) (Some []) "sum" eq_refl eq_refl (or_intror eq_refl)).
Defined.

(** X5.  With [group_cols] left at its default, None, a request that is
    otherwise in order (date column and numeric columns in the table,
    no numeric column named twice, a reduction of the three) makes
    [process_file] raise TypeError where it builds the list of the
    keys: no table is returned and no CSV is written or offered. *)
Theorem default_group_cols_raises (L : Externals) file sheet_name (data : DataFrame)
    date_col (c : string) (cs : list string) agg_func (f : reduction) :
  reads_as L file sheet_name data ->
  mem date_col (columns data) = true ->
  forallb (fun col => mem col (columns data)) (c :: cs) = true ->
  distinct (c :: cs) = true ->
  reduction_of agg_func = Some f ->
  process_file L file sheet_name date_col None (Some (c :: cs)) agg_func (format_date L)
  = (available_columns_line data :: date_report L date_col data, Raise TypeError)
  /\ existsb is_output
       (fst (process_file L file sheet_name date_col None (Some (c :: cs)) agg_func
               (format_date L))) = false.
Proof.
  intros Hread Hcol Hall Hd Hf.
  assert (Hrun : process_file L file sheet_name date_col None (Some (c :: cs)) agg_func
                   (format_date L)
                 = (available_columns_line data :: date_report L date_col data,
                    Raise TypeError)).
  { rewrite (process_file_reads _ _ _ _ _ _ _ _ _ Hread), process_table_dated by assumption.
    unfold aggregate_block.
    rewrite (none_missing_in_dated L date_col data (c :: cs) Hall).
    unfold coerce_columns. rewrite Hd, bind_lift_ret, Hf.
    cbn. now rewrite app_nil_r. }
  rewrite Hrun. split; [reflexivity|].
  cbn [fst existsb available_columns_line is_output orb].
  apply date_errors_no_output, date_report_errors.
Qed.

Lemma default_group_cols_raises_witness :
  let S := sample_externals month_region_sales in
  process_file S sales_csv None "Month" None (Some ["Sales"]) "sum" (format_date S)
  = ([available_columns_line month_region_sales], Raise TypeError)
  /\ existsb is_output
       (fst (process_file S sales_csv None "Month" None (Some ["Sales"]) "sum"
               (format_date S))) = false.
Proof.
  intro S.
  exact (default_group_cols_raises S sales_csv None month_region_sales "Month" "Sales" []
           "sum" RSum eq_refl eq_refl eq_refl eq_refl eq_refl).
Defined.

(** ** The name of the file *)





(** ** Requests made of columns of the table *)

(** X7.  When the date column, the group columns and the numeric
    columns are all columns of the table, as when they are picked from
    the list of the available columns, and the reduction is one of the
    three, [process_file] never answers "Missing columns" nor
    "Unsupported aggregation function" and never raises KeyError: the
    only errors it reports are dates that did not parse and "No columns
    selected for summing". *)
Theorem picked_columns_never_missing (L : Externals) file sheet_name (data : DataFrame)
    date_col (g cs : list string) agg_func (f : reduction) log res :
  reads_as L file sheet_name data ->
  mem date_col (columns data) = true ->
  forallb (fun col => mem col (columns data)) g = true ->
  forallb (fun col => mem col (columns data)) cs = true ->
  reduction_of agg_func = Some f ->
  process_file L file sheet_name date_col (Some g) (Some cs) agg_func (format_date L)
  = (log, res) ->
  (forall m, In (StError m) log -> m = ErrNoColumns \/ exists v x, m = ErrDateParse v x)
  /\ (forall k, res <> Raise (KeyError k)).
Proof.
  intros Hread Hcol Hg Hcs Hf Hrun.
  rewrite (process_file_reads _ _ _ _ _ _ _ _ _ Hread), process_table_dated in Hrun
    by assumption.
  injection Hrun as <- <-.
  assert (Hdates : forall m, In (StError m) (date_report L date_col data) ->
                     exists v x, m = ErrDateParse v x).
  { intros m Hm. pose proof (date_report_errors L date_col data) as Herr.
    unfold date_errors_only in Herr. rewrite Forall_forall in Herr.
    destruct (Herr _ Hm) as (v & x & [= ->]). eauto. }
  assert (Hblock :
            (forall m, In (StError m)
                         (fst (aggregate_block L (dated L date_col data) (Some g) (Some cs)
                                 agg_func)) -> m = ErrNoColumns)
            /\ forall k, snd (aggregate_block L (dated L date_col data) (Some g) (Some cs)
                                agg_func) <> Raise (KeyError k)).
  { unfold aggregate_block.
    destruct cs as [|c cs].
    { split; [intros m [[= <-] | []]; reflexivity | discriminate]. }
    rewrite (none_missing_in_dated L date_col data (c :: cs) Hcs).
    unfold coerce_columns.
    destruct (distinct (c :: cs)); [|split; [intros m [] | discriminate]].
    rewrite bind_lift_ret, Hf. cbn [group_key_columns]. rewrite bind_lift_ret.
    unfold groupby_agg. cbn [columns].
    destruct (find _ (formatted_month :: g)) as [k|] eqn:Hfind.
    { exfalso. apply find_some in Hfind as [Hin Hk].
      rewrite mem_dated in Hk.
      destruct Hin as [<- | Hin].
      - now rewrite String.eqb_refl, orb_true_r in Hk.
      - rewrite forallb_forall in Hg. now rewrite (Hg k Hin) in Hk. }
    destruct (distinct _); [|split; [intros m [] | discriminate]].
    rewrite bind_lift_ret.
    split; [|discriminate].
    intros m Hm. cbn in Hm. intuition discriminate. }
  destruct Hblock as [Hlog Hres].
  split; [|exact Hres].
  intros m [Hm | Hm]; [discriminate|].
  apply in_app_or in Hm as [Hm | Hm]; [right; now apply Hdates | left; now apply Hlog].
Qed.

Lemma picked_columns_never_missing_witness :
  let S := sample_externals dates_missing in
  (forall m,
     In (StError m)
       (fst (process_file S sales_csv None "Month" (Some ["Region"; "Sales"])
               (Some ["Sales"]) "mean" (format_date S))) ->
     m = ErrNoColumns \/ exists v x, m = ErrDateParse v x)
  /\ (forall k,
        snd (process_file S sales_csv None "Month" (Some ["Region"; "Sales"])
               (Some ["Sales"]) "mean" (format_date S)) <> Raise (KeyError k)).
Proof.
  intro S.
  exact (picked_columns_never_missing S sales_csv None dates_missing "Month"
           ["Region"; "Sales"] ["Sales"] "mean" RMean _ _
           eq_refl eq_refl eq_refl eq_refl eq_refl
           (surjective_pairing _)).
Defined.

(** ** Successful runs *)

Lemma process_table_succeeds (L : Externals) (data : DataFrame) date_col
    (g : list string) (c : string) (cs : list string) agg_func (f : reduction) :
  mem date_col (columns data) = true ->
  forallb (fun col => mem col (columns data)) (g ++ c :: cs) = true ->
  distinct (formatted_month :: g ++ c :: cs) = true ->
  reduction_of agg_func = Some f ->
  let RC := map (coerce_row L (c :: cs)) (dated_rows L date_col data) in
  let out := mkFrame (formatted_month :: g ++ c :: cs)
               (map (agg_row (formatted_month :: g) (c :: cs) f RC)
                  (group_keys L (formatted_month :: g) RC)) in
  process_table L data date_col (Some g) (Some (c :: cs)) agg_func (format_date L)
  = (available_columns_line data :: date_report L date_col data ++ output_events L out,
     Ret (Some out)).
Proof.
  intros Hdate Hall Hd Hf RC out.
  destruct (distinct_keys_facts g (c :: cs) Hd) as (_ & Hdcs & _).
  rewrite forallb_app in Hall. apply andb_true_iff in Hall as [Hg Hcs].
  rewrite process_table_dated by assumption.
  assert (Hagg : aggregate_block L (dated L date_col data) (Some g) (Some (c :: cs)) agg_func
                 = (output_events L out, Ret (Some out))).
  { apply aggregate_block_ok with (f := f); try assumption.
    - now apply none_missing_in_dated.
    - apply groupby_agg_ok; [|exact Hd].
      cbn [forallb columns].
      rewrite mem_dated, String.eqb_refl, orb_true_r. cbn [andb].
      rewrite forallb_forall in Hg |- *. intros x Hx.
      now rewrite mem_dated, (Hg x Hx). }
  now rewrite Hagg.
Qed.

Lemma aggregated_row_cells (L : Externals) (date_col : string) (data : DataFrame)
    (g cs : list string) (f : reduction) (k : list value) :
  distinct (formatted_month :: g ++ cs) = true ->
  In k (group_keys L (formatted_month :: g)
          (map (coerce_row L cs) (dated_rows L date_col data))) ->
  let r := agg_row (formatted_month :: g) cs f
             (map (coerce_row L cs) (dated_rows L date_col data)) k in
  key_of (formatted_month :: g) r = k
  /\ forall col, In col cs ->
       lookup r col
       = reduce f (numeric_entries L col
                     (group (formatted_month :: g) (dated_rows L date_col data) k)).
Proof.
  intros Hd Hk r.
  destruct (distinct_keys_facts g cs Hd) as (_ & _ & Hdis).
  pose proof (group_key_length _ _ _ _ Hk) as Hlen.
  destruct (agg_row_cells (formatted_month :: g) cs f
              (map (coerce_row L cs) (dated_rows L date_col data)) k Hd Hlen)
    as [Hkey Hcell].
  split; [exact Hkey|].
  intros col Hcol. subst r. rewrite (Hcell col Hcol).
  rewrite group_coerced by exact Hdis.
  now rewrite numbers_coerced by now apply mem_In.
Qed.

Lemma filter_none {A} (p : A -> bool) (l : list A) :
  (forall a, In a l -> p a = false) -> filter p l = [].
Proof.
  induction l as [|a l IH]; intro H; [reflexivity|].
  cbn [filter]. rewrite (H a) by now left.
  apply IH. intros x Hx. apply H. now right.
Qed.

Lemma group_keys_nil (L : Externals) (keys : list string) : group_keys L keys [] = [].
Proof.
  unfold group_keys. cbn [map filter nodup].
  apply Permutation_nil, Permutation_sym, sort_keys_perm.
Qed.

(** X8.  When the date of no row is normalized (every date is missing
    or does not parse, or the table has no row), a request that is
    otherwise in order still succeeds: the aggregated table has the
    columns [Formatted Month], the group columns and the numeric
    columns, and no row, and the CSV written holds the header line
    only. *)
Theorem no_date_header_only (L : Externals) file sheet_name (data : DataFrame) date_col
    (g : list string) (c : string) (cs : list string) agg_func (f : reduction) :
  reads_as L file sheet_name data ->
  mem date_col (columns data) = true ->
  forallb (fun col => mem col (columns data)) (g ++ c :: cs) = true ->
  distinct (formatted_month :: g ++ c :: cs) = true ->
  reduction_of agg_func = Some f ->
  (forall r, In r (rows data) -> date_value L (lookup r date_col) = None) ->
  let run := process_file L file sheet_name date_col (Some g) (Some (c :: cs)) agg_func
               (format_date L) in
  snd run = Ret (Some (mkFrame (formatted_month :: g ++ c :: cs) []))
  /\ In (ToCsvFile output_file_path (write_row L (formatted_month :: g ++ c :: cs)))
       (fst run).
Proof.
  intros Hread Hdate Hall Hd Hf Hnone run. subst run.
  rewrite (process_file_reads _ _ _ _ _ _ _ _ _ Hread).
  rewrite (process_table_succeeds L data date_col g c cs agg_func f) by assumption.
  assert (Hrows : dated_rows L date_col data = []).
  { rewrite dated_rows_good.
    rewrite (filter_none _ (rows (dropna_all data))); [reflexivity|].
    intros r Hr. unfold dropna_all in Hr. cbn [rows] in Hr.
    apply filter_In in Hr as [Hr _]. now rewrite (Hnone r Hr). }
  rewrite Hrows. cbn [map]. rewrite group_keys_nil. cbn [map fst snd].
  split; [reflexivity|].
  right. apply in_or_app. right. left.
  unfold to_csv, to_records. cbn [columns rows map write_rows fold_right].
  now rewrite string_app_nil_r.
Qed.

Lemma no_date_header_only_witness :
  let S := sample_externals dates_as_numbers in
  let run := process_file S sales_csv None "Month" (Some ["Region"]) (Some ["Sales"]) "sum"
               (format_date S) in
  snd run = Ret (Some (mkFrame ["Formatted Month"; "Region"; "Sales"] []))
  /\ In (ToCsvFile output_file_path
           (write_row S ["Formatted Month"; "Region"; "Sales"])) (fst run).
Proof.
  intro S.
  apply (no_date_header_only S sales_csv None dates_as_numbers "Month" ["Region"] "Sales" []
           "sum" RSum eq_refl eq_refl eq_refl eq_refl eq_refl).
  intros r [<- | [<- | []]]; reflexivity.
Defined.

(** X9.  The aggregated table of a successful run has no more rows than
    the table that was read. *)
Theorem aggregated_rows_bounded (L : Externals) file sheet_name (data : DataFrame) date_col
    group_cols sum_cols agg_func (log : list event) (out : DataFrame) :
  reads_as L file sheet_name data ->
  process_file L file sheet_name date_col group_cols sum_cols agg_func (format_date L)
  = (log, Ret (Some out)) ->
  (List.length (rows out) <= List.length (rows data))%nat.
Proof.
  intros Hread Hrun.
  rewrite (process_file_reads _ _ _ _ _ _ _ _ _ Hread) in Hrun.
  apply process_table_success_inv in Hrun
    as (g & cs & f & _ & _ & _ & _ & _ & _ & -> & _).
  cbn [rows]. rewrite length_map. unfold group_keys.
  rewrite (Permutation_length (sort_keys_perm L _)).
  eapply Nat.le_trans.
  { apply NoDup_incl_length; [apply NoDup_nodup|].
    intros k Hk. apply nodup_In in Hk. exact Hk. }
  eapply Nat.le_trans; [apply filter_length_le|].
  rewrite !length_map. unfold dated_rows.
  eapply Nat.le_trans; [apply filter_length_le|].
  rewrite length_map. unfold dropna_all. cbn [rows].
  apply filter_length_le.
Qed.

Lemma aggregated_rows_bounded_witness :
  (List.length (rows two_regions_sum) <= List.length (rows two_regions))%nat.
Proof.
  exact (aggregated_rows_bounded (sample_externals two_regions) sales_csv None two_regions
           "Month" (Some ["Region"]) (Some ["Sales"]) "sum" _ two_regions_sum
           eq_refl eq_refl).
Defined.

Lemma dated_row_origin (L : Externals) (date_col : string) (data : DataFrame) (dr : row) :
  In dr (dated_rows L date_col data) ->
  exists r0 s,
    In r0 (rows data) /\ date_value L (lookup r0 date_col) = Some s
    /\ dr = set_cell r0 formatted_month (VStr s).
Proof.
  rewrite dated_rows_good. intro H.
  apply in_map_iff in H as (r0 & <- & Hr0).
  apply filter_In in Hr0 as [Hr0 Hgood].
  unfold dropna_all in Hr0. cbn [rows] in Hr0. apply filter_In in Hr0 as [Hr0 _].
  destruct (date_value L (lookup r0 date_col)) as [s|] eqn:Hs; [|discriminate].
  exists r0, s. now repeat split.
Qed.



(** ** Totals *)











Lemma numeric_entries_none (L : Externals) (col : string) (rs : list row) :
  (forall r, In r rs -> to_numeric L (lookup r col) = VNull) ->
  numeric_entries L col rs = [].
Proof.
  unfold numeric_entries. induction rs as [|r rs IH]; intro H; [reflexivity|].
  cbn [flat_map]. rewrite (H r) by now left.
  apply IH. intros x Hx. apply H. now right.
Qed.

(** X12.  When no entry of a numeric column is a number, a successful
    run shows 0 in every cell of that column under [sum], and a missing
    value under [mean] and [median]. *)
Theorem column_without_numbers (L : Externals) file sheet_name (data : DataFrame) date_col
    group_cols (cs : list string) agg_func (f : reduction) (log : list event)
    (out : DataFrame) (col : string) :
  reads_as L file sheet_name data ->
  reduction_of agg_func = Some f ->
  In col cs ->
  (forall r0, In r0 (rows data) -> to_numeric L (lookup r0 col) = VNull) ->
  process_file L file sheet_name date_col group_cols (Some cs) agg_func (format_date L)
  = (log, Ret (Some out)) ->
  forall r, In r (rows out) ->
    lookup r col = match f with RSum => VNum 0 | _ => VNull end.
Proof.
  intros Hread Hf Hcol Hnone Hrun r Hr.
  rewrite (process_file_reads _ _ _ _ _ _ _ _ _ Hread) in Hrun.
  apply process_table_success_inv in Hrun
    as (g & cs' & f' & -> & [= <-] & _ & _ & Hf' & Hd & -> & _).
  rewrite Hf in Hf'. injection Hf' as <-.
  cbn [rows] in Hr. apply in_map_iff in Hr as (k & <- & Hk).
  destruct (aggregated_row_cells L date_col data g cs f k Hd Hk) as [_ Hcell].
  cbn zeta in Hcell. rewrite (Hcell col Hcol).
  destruct (distinct_keys_facts g cs Hd) as (_ & _ & Hdis).
  rewrite numeric_entries_none; [now destruct f|].
  intros dr Hdr. unfold group in Hdr. apply filter_In in Hdr as [Hdr _].
  destruct (dated_row_origin L date_col data dr Hdr) as (r0 & s & Hr0 & _ & ->).
  rewrite lookup_set_other; [now apply Hnone|].
  intros ->. apply mem_In in Hcol.
  rewrite (Hdis formatted_month) in Hcol by now left. discriminate.
Qed.

Lemma column_without_numbers_witness :
  lookup [("Formatted Month", VStr "01-05-2024"); ("Region", VStr "A"); ("Sales", VNull)]
    "Sales" = VNull.
Proof.
  apply (column_without_numbers (sample_externals sales_all_text) sales_csv None
           sales_all_text "Month" (Some ["Region"]) ["Sales"] "mean" RMean
           (fst (process_file (sample_externals sales_all_text) sales_csv None "Month"
                   (Some ["Region"]) (Some ["Sales"]) "mean"
                   (format_date (sample_externals sales_all_text))))
           (mkFrame ["Formatted Month"; "Region"; "Sales"]
              [ [("Formatted Month", VStr "01-05-2024"); ("Region", VStr "A");
                 ("Sales", VNull)] ])
           "Sales" eq_refl eq_refl (or_introl eq_refl)).
  - intros r0 [<- | [<- | []]]; reflexivity.
  - reflexivity.
  - left. reflexivity.
Defined.
